(** * WonderLens Chronicles API: mantra and oracle generation

    A shallow embedding of [generate_mantra] and [oracle] of [main.py],
    with the records of [schemas.py] they build, and the properties of the
    text-generation-with-fallback pattern they share.

    Python strings are sequences of Unicode code points; the provider call
    ([requests.post]), the process environment, the wall clock and the
    document store are explicit inputs. The body of each [try] block lives
    in the error monad [sum exn]; [except Exception] is [catch]. *)

From Stdlib Require Import List NArith ZArith String Ascii Bool Lia DecimalString.
From Stdlib Require Import DecimalPos DecimalN.
From ExtLib Require Import Structures.Monad Structures.MonadExc Data.Monads.EitherMonad.
Import ListNotations MonadNotation.
Local Open Scope monad_scope.
Local Open Scope list_scope.

(* ===================================================================== *)
(** * Python strings *)
(* ===================================================================== *)

(** A [str] is the list of its code points. *)
Definition str := list N.

(** An ASCII literal of the source, as a [str]. *)
Definition lit (s : string) : str :=
  map N_of_ascii (list_ascii_of_string s).

Definition LF : N := 10.        (* "\n" *)
Definition SP : N := 32.        (* " " *)
Definition HYPHEN : N := 45.    (* "-" *)
Definition EN_DASH : N := 8211. (* U+2013, the dash of "1–2 lines" *)
Definition BULLET : N := 8226.  (* U+2022, "•" *)

Definition between (lo hi c : N) : bool := (lo <=? c)%N && (c <=? hi)%N.

(** [str.isspace] on one code point: the characters CPython's
    [_PyUnicode_IsWhitespace] accepts. *)
Definition isspace (c : N) : bool :=
  between 9 13 c || between 28 32 c || (c =? 133)%N || (c =? 160)%N
  || (c =? 5760)%N || between 8192 8202 c || (c =? 8232)%N || (c =? 8233)%N
  || (c =? 8239)%N || (c =? 8287)%N || (c =? 12288)%N.

(** Truth value of a string: [bool(s)]. *)
Definition truthy (s : str) : bool :=
  match s with [] => false | _ :: _ => true end.

(** [o or d] for an [Optional[str]] on the left: [None] and [""] are falsy. *)
Definition py_or (o : option str) (d : str) : str :=
  match o with
  | Some s => if truthy s then s else d
  | None => d
  end.

Fixpoint dropwhile (p : N -> bool) (s : str) : str :=
  match s with
  | [] => []
  | c :: s' => if p c then dropwhile p s' else s
  end.

Definition lstrip_by (p : N -> bool) (s : str) : str := dropwhile p s.
Definition rstrip_by (p : N -> bool) (s : str) : str := rev (dropwhile p (rev s)).

(** Both ends, as [str.strip] does: every leading and every trailing
    character that [p] accepts. *)
Definition strip_by (p : N -> bool) (s : str) : str := rstrip_by p (lstrip_by p s).

(** [s.strip()] *)
Definition strip (s : str) : str := strip_by isspace s.

Definition mem (chars : str) (c : N) : bool := existsb (N.eqb c) chars.

(** [s.strip(chars)] *)
Definition strip_chars (chars : str) (s : str) : str := strip_by (mem chars) s.

(** [s.split(sep)] for a separator of one character: the pieces between
    the occurrences of [sep]; never the empty list. *)
Fixpoint split (sep : N) (s : str) : list str :=
  match s with
  | [] => [[]]
  | c :: s' =>
      if (c =? sep)%N then [] :: split sep s'
      else match split sep s' with
           | [] => [[c]]
           | p :: ps => (c :: p) :: ps
           end
  end.

(** [sep.join(parts)] *)
Fixpoint join (sep : str) (ps : list str) : str :=
  match ps with
  | [] => []
  | [p] => p
  | p :: ps' => p ++ sep ++ join sep ps'
  end.

Fixpoint startswith (p s : str) : bool :=
  match p, s with
  | [], _ => true
  | a :: p', b :: s' => (a =? b)%N && startswith p' s'
  | _ :: _, [] => false
  end.

(** [needle in hay] *)
Fixpoint contains (needle hay : str) : bool :=
  startswith needle hay
  || match hay with
     | [] => false
     | _ :: hay' => contains needle hay'
     end.

(** [hay] holds [needle] as a contiguous run. *)
Definition substring (needle hay : str) : Prop :=
  exists pre post, hay = pre ++ needle ++ post.

(* ===================================================================== *)
(** * Exceptions, JSON values and the provider's answer *)
(* ===================================================================== *)

(** The exceptions the provider path can raise. Each one is a subclass of
    [Exception], which is what the two handlers catch. *)
Inductive exn :=
| ConnectionError | Timeout | HTTPError (status : Z) | JSONDecodeError
| KeyError | IndexError | TypeError | AttributeError.

Definition result := sum exn.

(** What [resp.json()] can return. A number keeps its literal: the code
    never looks at its value. *)
#[local] Set Warnings "-register-all".
Inductive json :=
| JNull
| JBool (b : bool)
| JNumber (literal : str)
| JString (s : str)
| JArray (items : list json)
| JObject (members : list (str * json)).

Definition str_eqb (a b : str) : bool :=
  if list_eq_dec N.eq_dec a b then true else false.

(** Lookup in the [dict] built from a JSON object: of two members with the
    same key the later one stays. *)
Fixpoint dict_get (k : str) (members : list (str * json)) : option json :=
  match members with
  | [] => None
  | (k', v) :: rest =>
      match dict_get k rest with
      | Some v' => Some v'
      | None => if str_eqb k k' then Some v else None
      end
  end.

(** [v[k]] for a string key [k]. *)
Definition getitem (k : str) (v : json) : result json :=
  match v with
  | JObject members =>
      match dict_get k members with
      | Some x => ret x
      | None => raise KeyError
      end
  | _ => raise TypeError
  end.

(** [v[0]] *)
Definition getitem0 (v : json) : result json :=
  match v with
  | JArray [] => raise IndexError
  | JArray (x :: _) => ret x
  | JString [] => raise IndexError
  | JString (c :: _) => ret (JString [c])
  | JObject _ => raise KeyError
  | _ => raise TypeError
  end.

(** [v.strip()]: only a [str] has the method. *)
Definition strip_method (v : json) : result str :=
  match v with
  | JString s => ret (strip s)
  | _ => raise AttributeError
  end.

Module Response.
(** A [requests.Response], as far as the code reads it: the status and
    the body decoded as JSON ([None] when it does not decode). *)
Record t := { status_code : Z; body : option json }.
End Response.

Definition raise_for_status (resp : Response.t) : result unit :=
  let s := Response.status_code resp in
  if (400 <=? s)%Z && (s <? 600)%Z then raise (HTTPError s) else ret tt.

Definition resp_json (resp : Response.t) : result json :=
  match Response.body resp with
  | Some j => ret j
  | None => raise JSONDecodeError
  end.

(** The request handed to [requests.post]. *)
Record chat_message := { role : str; content : str }.

Record chat_body := {
  model : str;
  messages : list chat_message;
  temperature : str;   (* the literal 0.8 *)
  max_tokens : Z
}.

Record http_request := {
  url : str;
  headers : list (str * str);
  json_payload : chat_body;
  timeout : Z
}.

(** [requests.post]: the network, an input of the model. *)
Definition provider := http_request -> result Response.t.

Definition chat_request (openai_key system user : str) (tokens : Z) : http_request :=
  {| url := lit "https://api.openai.com/v1/chat/completions";
     headers := [ (lit "Authorization", lit "Bearer " ++ openai_key);
                  (lit "Content-Type", lit "application/json") ];
     json_payload :=
       {| model := lit "gpt-4o-mini";
          messages := [ {| role := lit "system"; content := system |};
                        {| role := lit "user"; content := user |} ];
          temperature := lit "0.8";
          max_tokens := tokens |};
     timeout := 20 |}.

(** [resp.raise_for_status()] and
    [resp.json()["choices"][0]["message"]["content"].strip()]. *)
Definition message_content (resp : Response.t) : result str :=
  raise_for_status resp ;;
  j <- resp_json resp ;;
  choices <- getitem (lit "choices") j ;;
  choice <- getitem0 choices ;;
  message <- getitem (lit "message") choice ;;
  c <- getitem (lit "content") message ;;
  strip_method c.

Definition call_provider (post : provider) (rq : http_request) : result str :=
  resp <- post rq ;;
  message_content resp.

(* ===================================================================== *)
(** * Requests and stored documents ([main.py], [schemas.py]) *)
(* ===================================================================== *)

Module MantraRequest.
Record t := {
  user_id : str;
  user_mood : option str;
  user_stage : option str;
  recent_journal_theme : option str
}.
End MantraRequest.

Module Mantra.
Record t := {
  user_id : str;
  text : str;
  meaning : option str;
  stage : option str;
  mood : option str;
  journal_theme : option str;
  date : option str
}.
End Mantra.

Module OracleConsult.
Record t := {
  user_id : option str;
  prompt : str;
  interpretation : option str;
  references : option (list str)
}.
End OracleConsult.

(** What [create_document] is given: a model of either collection. *)
Inductive document :=
| MantraDoc (m : Mantra.t)
| OracleDoc (c : OracleConsult.t).

(* ===================================================================== *)
(** * The wall clock and [date.today().isoformat()] *)
(* ===================================================================== *)

(** The instant of a call, in seconds since the epoch, and the offset of
    the server's local time zone from UTC at that instant, in seconds. *)
Record clock := { epoch_seconds : Z; utcoffset : Z }.

Module Date.
Record t := { year : Z; month : Z; day : Z }.
End Date.

(** The proleptic Gregorian date of the day [z] days after 1970-01-01. *)
Definition civil_from_days (z : Z) : Date.t :=
  let z := (z + 719468)%Z in
  let era := (z / 146097)%Z in
  let doe := (z - era * 146097)%Z in
  let yoe := ((doe - doe / 1460 + doe / 36524 - doe / 146096) / 365)%Z in
  let doy := (doe - (365 * yoe + yoe / 4 - yoe / 100))%Z in
  let mp := ((5 * doy + 2) / 153)%Z in
  let d := (doy - (153 * mp + 2) / 5 + 1)%Z in
  let m := if (mp <? 10)%Z then (mp + 3)%Z else (mp - 9)%Z in
  let y := (yoe + era * 400)%Z in
  {| Date.year := if (m <=? 2)%Z then (y + 1)%Z else y;
     Date.month := m;
     Date.day := d |}.

(** [date.today()]: the calendar day of the local wall clock. ([datetime]
    holds years 1 to 9999, which is where a server's clock is.) *)
Definition date_today (c : clock) : Date.t :=
  civil_from_days ((epoch_seconds c + utcoffset c) / 86400).

(** The calendar day of the same instant in UTC. *)
Definition utc_today (c : clock) : Date.t :=
  civil_from_days (epoch_seconds c / 86400).

Definition decimal (n : Z) : str :=
  lit (NilZero.string_of_uint (N.to_uint (Z.to_N n))).

(** ["%0<width>d" % n] for [0 <= n]. *)
Definition zero_padded (width : nat) (n : Z) : str :=
  let d := decimal n in
  repeat 48%N (width - List.length d) ++ d.

(** [d.isoformat()]: ["%04d-%02d-%02d"]. *)
Definition isoformat (d : Date.t) : str :=
  zero_padded 4 (Date.year d) ++ [HYPHEN] ++ zero_padded 2 (Date.month d)
  ++ [HYPHEN] ++ zero_padded 2 (Date.day d).

(* ===================================================================== *)
(** * Mantra generation: [generate_mantra], lines 126 to 170 *)
(* ===================================================================== *)

(** The [str.format] template of [base_prompt]. *)
Definition prompt_template (mood stage theme : str) : str :=
  lit "Create a daily mantra in an African spiritual tone. "
  ++ lit "Inputs: mood=" ++ mood ++ lit ", stage=" ++ stage
  ++ lit ", theme=" ++ theme ++ lit ". "
  ++ lit "Output: Short mantra (1" ++ [EN_DASH] ++ lit "2 lines) then a brief meaning.".

Definition base_prompt (req : MantraRequest.t) : str :=
  prompt_template (py_or (MantraRequest.user_mood req) [])
                  (py_or (MantraRequest.user_stage req) [])
                  (py_or (MantraRequest.recent_journal_theme req) []).

Definition mantra_system : str :=
  lit "You are a wise African mystic blending Yoruba, Kikuyu and Kemetian wisdom in gentle, empowering language.".

Definition mantra_request (openai_key : str) (req : MantraRequest.t) : http_request :=
  chat_request openai_key mantra_system (base_prompt req) 120.

(** The characters of ["- \u2022\n "]. *)
Definition markers : str := [HYPHEN; SP; BULLET; LF; SP].

(** [[p.strip("- \u2022\n ") for p in msg.split("\n") if p.strip()]] *)
Definition parts (msg : str) : list str :=
  map (strip_chars markers) (filter (fun p => truthy (strip p)) (split LF msg)).

Definition default_meaning : str :=
  lit "A reminder of your inner divinity and alignment with Ashe.".

(** Lines 155 to 160: the pair [(text, meaning)] read off a message. *)
Definition split_message (msg : str) : str * str :=
  let ps := parts msg in
  if (2 <=? List.length ps)%nat then (hd [] ps, join [SP] (tl ps))
  else (msg, default_meaning).

(** The handler of line 161. *)
Definition mantra_on_error : str * str :=
  (lit "I am Divine Flow. Ashe.",
   lit "Return to breath and remember: your path is guided by ancestors and inner light.").

(** The f-string of line 169. *)
Definition mantra_template (theme mood stage : str) : str :=
  lit "I walk in " ++ theme ++ lit ", breathing " ++ mood
  ++ lit ", embodying " ++ stage ++ lit ". Ashe.".

Definition encouragement : str :=
  lit "Let this guide your day with grounded presence and ancestral support.".

(** Lines 166 to 170: the branch without a credential. *)
Definition mantra_fallback (req : MantraRequest.t) : str * str :=
  let mood := py_or (MantraRequest.user_mood req) (lit "centered") in
  let stage := py_or (MantraRequest.user_stage req) (lit "Awakening") in
  let theme := py_or (MantraRequest.recent_journal_theme req) (lit "clarity") in
  (mantra_template theme mood stage, encouragement).

(** [if openai_key:] on the value of [os.getenv]: the credential when it is
    set and not empty. *)
Definition credential (openai_key : option str) : option str :=
  match openai_key with
  | Some k => if truthy k then Some k else None
  | None => None
  end.

(** Lines 127 to 170: [(text, meaning)] after the [if]. *)
Definition mantra_content (post : provider) (openai_key : option str)
    (req : MantraRequest.t) : result (str * str) :=
  match credential openai_key with
  | Some k =>
      catch (msg <- call_provider post (mantra_request k req) ;;
             ret (split_message msg))
            (fun _ => ret mantra_on_error)
  | None => ret (mantra_fallback req)
  end.

(* ===================================================================== *)
(** * Oracle: [oracle], lines 201 to 232 *)
(* ===================================================================== *)

Definition oracle_system : str :=
  lit "You are The Lens Oracle, compassionate, culturally rooted, clear.".

Definition oracle_prompt (consult : OracleConsult.t) : str :=
  lit "Interpret this using African spiritual wisdom (Yoruba, Kikuyu, Kemet). "
  ++ lit "Explain metaphysical cause and lesson. Input:" ++ [LF]
  ++ OracleConsult.prompt consult.

Definition oracle_request (openai_key : str) (consult : OracleConsult.t) : http_request :=
  chat_request openai_key oracle_system (oracle_prompt consult) 300.

Definition oracle_on_success (msg : str) : str * list str :=
  (msg, [lit "Wikipedia: Orishas"; lit "Wikidata: Kemet symbols"]).

Definition oracle_on_error : str * list str :=
  (lit "Your dream reflects a call to balance. Honor breath, pour libation (water), and affirm your worth.",
   [lit "Proverb: A river that forgets its source will dry up."]).

Definition oracle_fallback : str * list str :=
  (lit "This symbol speaks of alignment. Practice heart-centered breath and offer gratitude to ancestors.",
   [lit "Ashe (vital force)"; lit "Ngai (divine source)"]).

(** Lines 202 to 232: [(interpretation, refs)] after the [if]. *)
Definition oracle_content (post : provider) (openai_key : option str)
    (consult : OracleConsult.t) : result (str * list str) :=
  match credential openai_key with
  | Some k =>
      catch (msg <- call_provider post (oracle_request k consult) ;;
             ret (oracle_on_success msg))
            (fun _ => ret oracle_on_error)
  | None => ret oracle_fallback
  end.

(* ===================================================================== *)
(** * The two endpoints, lines 125 to 175 and 200 to 236 *)
(* ===================================================================== *)

(** What a call reads from outside: [os.getenv("OPENAI_API_KEY")], the
    network behind [requests.post], and the clock. *)
Record environment := {
  OPENAI_API_KEY : option str;
  post : provider;
  now : clock
}.

Module MantraReply.
(** [{"id": .., "date": .., "text": .., "meaning": ..}] *)
Record t (doc_id : Type) := { id : doc_id; date : str; text : str; meaning : str }.
Arguments id {doc_id} _.
Arguments date {doc_id} _.
Arguments text {doc_id} _.
Arguments meaning {doc_id} _.
End MantraReply.

Module OracleReply.
(** [{"id": .., "interpretation": .., "references": ..}] *)
Record t (doc_id : Type) := { id : doc_id; interpretation : str; references : list str }.
Arguments id {doc_id} _.
Arguments interpretation {doc_id} _.
Arguments references {doc_id} _.
End OracleReply.

Section Endpoints.

Context {store doc_id : Type}.

(** Modelled from the spec: [database.create_document], imported by
    [main.py] and absent from the sources. The store's create operation
    returns the identifier of the new document synchronously; here it
    also returns the store after the write. *)
Variable create_document : str -> document -> store -> doc_id * store.

Definition generate_mantra (env : environment) (db : store) (req : MantraRequest.t)
  : result (MantraReply.t doc_id * store) :=
  '(text, meaning) <- mantra_content (post env) (OPENAI_API_KEY env) req ;;
  let today := isoformat (date_today (now env)) in
  let doc := {| Mantra.user_id := MantraRequest.user_id req;
                Mantra.text := text;
                Mantra.meaning := Some meaning;
                Mantra.stage := MantraRequest.user_stage req;
                Mantra.mood := MantraRequest.user_mood req;
                Mantra.journal_theme := MantraRequest.recent_journal_theme req;
                Mantra.date := Some today |} in
  let '(mantra_id, db') := create_document (lit "mantra") (MantraDoc doc) db in
  ret ({| MantraReply.id := mantra_id; MantraReply.date := today;
          MantraReply.text := text; MantraReply.meaning := meaning |}, db').

Definition oracle (env : environment) (db : store) (consult : OracleConsult.t)
  : result (OracleReply.t doc_id * store) :=
  '(interpretation, refs) <- oracle_content (post env) (OPENAI_API_KEY env) consult ;;
  let doc := {| OracleConsult.user_id := OracleConsult.user_id consult;
                OracleConsult.prompt := OracleConsult.prompt consult;
                OracleConsult.interpretation := Some interpretation;
                OracleConsult.references := Some refs |} in
  let '(consult_id, db') := create_document (lit "oracleconsult") (OracleDoc doc) db in
  ret ({| OracleReply.id := consult_id;
          OracleReply.interpretation := interpretation;
          OracleReply.references := refs |}, db').

End Endpoints.






(* ===================================================================== *)
(** * The reading of a message as the specification words it *)
(* ===================================================================== *)

Definition bullet_or_dash (c : N) : bool := (c =? HYPHEN)%N || (c =? BULLET)%N.

(** One line with its leading bullet and dash markers and the whitespace
    around it removed; what follows the first other character stays, up to
    trailing whitespace. *)
Definition claimed_segment (line : str) : str :=
  rstrip_by isspace (lstrip_by (fun c => bullet_or_dash c || isspace c) line).

Definition claimed_parts (msg : str) : list str :=
  map claimed_segment (filter (fun p => truthy (strip p)) (split LF msg)).

Definition claimed_split_message (msg : str) : str * str :=
  let ps := claimed_parts msg in
  if (2 <=? List.length ps)%nat then (hd [] ps, join [SP] (tl ps))
  else (msg, default_meaning).

(* ===================================================================== *)
(** * Sample requests, providers, clocks and a store *)
(* ===================================================================== *)

Definition sample_key : str := lit "sk-test".

(** A chat-completion body whose first choice carries [c] as content. *)
Definition completion (c : json) : json :=
  JObject [ (lit "object", JString (lit "chat.completion"));
            (lit "choices",
             JArray [ JObject [ (lit "index", JNumber (lit "0"));
                                (lit "message",
                                 JObject [ (lit "role", JString (lit "assistant"));
                                           (lit "content", c) ]) ] ]) ].

Definition answering (c : json) : provider :=
  fun _ => ret {| Response.status_code := 200; Response.body := Some (completion c) |}.

Definition failing (e : exn) : provider := fun _ => raise e.

Definition server_error : provider :=
  fun _ => ret {| Response.status_code := 500; Response.body := None |}.

Definition unset_request : MantraRequest.t :=
  {| MantraRequest.user_id := lit "u1";
     MantraRequest.user_mood := None;
     MantraRequest.user_stage := None;
     MantraRequest.recent_journal_theme := None |}.

Definition centered_request : MantraRequest.t :=
  {| MantraRequest.user_id := lit "u1";
     MantraRequest.user_mood := Some (lit "centered");
     MantraRequest.user_stage := Some (lit "Awakening");
     MantraRequest.recent_journal_theme := Some (lit "clarity") |}.

Definition river_consult : OracleConsult.t :=
  {| OracleConsult.user_id := None;
     OracleConsult.prompt := lit "I dreamed of a river";
     OracleConsult.interpretation := None;
     OracleConsult.references := None |}.

(** 2025-11-04 22:00:00 UTC on a server three hours east of UTC. *)
Definition nairobi_evening : clock :=
  {| epoch_seconds := 1762293600; utcoffset := 10800 |}.

Definition utc_noon : clock :=
  {| epoch_seconds := 1762257600; utcoffset := 0 |}.

(** A store that keeps the documents in order and numbers them. *)
Definition list_store := list (str * document).

Definition append_document (collection : str) (d : document) (db : list_store)
  : nat * list_store :=
  (List.length db, db ++ [(collection, d)]).

Definition sample_env (k : option str) (p : provider) (c : clock) : environment :=
  {| OPENAI_API_KEY := k; post := p; now := c |}.

(* ===================================================================== *)
(** * The health report: [test_database], lines 28 to 56 *)
(* ===================================================================== *)

Definition CHECK_MARK : N := 9989.        (* U+2705 *)
Definition CROSS_MARK : N := 10060.       (* U+274C *)
Definition WARNING_SIGN : str := [9888%N; 65039%N].  (* U+26A0 U+FE0F *)

Module Database.
(** The handle [db] of [database.py] as [test_database] reads it: its
    [name] attribute when it has one, and what [list_collection_names()]
    does, the names or an exception with its message. *)
Record t := { name : option str; list_collection_names : str + list str }.
End Database.

Module HealthReport.
Record t := {
  backend : str;
  database : str;
  database_url : str;
  database_name : str;
  connection_status : str;
  collections : list str
}.
End HealthReport.

Definition with_database (v : str) (r : HealthReport.t) : HealthReport.t :=
  {| HealthReport.backend := HealthReport.backend r;
     HealthReport.database := v;
     HealthReport.database_url := HealthReport.database_url r;
     HealthReport.database_name := HealthReport.database_name r;
     HealthReport.connection_status := HealthReport.connection_status r;
     HealthReport.collections := HealthReport.collections r |}.

(** [response] as line 30 builds it. *)
Definition initial_report : HealthReport.t :=
  {| HealthReport.backend := CHECK_MARK :: lit " Running";
     HealthReport.database := CROSS_MARK :: lit " Not Available";
     HealthReport.database_url := CROSS_MARK :: lit " Not Set";
     HealthReport.database_name := CROSS_MARK :: lit " Not Set";
     HealthReport.connection_status := lit "Not Connected";
     HealthReport.collections := [] |}.

(** [test_database]. The handler of line 53 guards statements that do not
    raise on a handle of this shape, and is not reached. *)
Definition test_database (db : option Database.t) (DATABASE_URL : option str)
  : HealthReport.t :=
  match db with
  | Some d =>
      let connected :=
        {| HealthReport.backend := HealthReport.backend initial_report;
           HealthReport.database := CHECK_MARK :: lit " Available";
           HealthReport.database_url :=
             match credential DATABASE_URL with
             | Some _ => CHECK_MARK :: lit " Set"
             | None => CROSS_MARK :: lit " Not Set"
             end;
           HealthReport.database_name :=
             match Database.name d with
             | Some n => n
             | None => CHECK_MARK :: lit " Connected"
             end;
           HealthReport.connection_status := lit "Connected";
           HealthReport.collections := [] |} in
      match Database.list_collection_names d with
      | inr collections =>
          with_database (CHECK_MARK :: lit " Connected & Working")
            {| HealthReport.backend := HealthReport.backend connected;
               HealthReport.database := HealthReport.database connected;
               HealthReport.database_url := HealthReport.database_url connected;
               HealthReport.database_name := HealthReport.database_name connected;
               HealthReport.connection_status := HealthReport.connection_status connected;
               HealthReport.collections := firstn 10 collections |}
      | inl e =>
          with_database (WARNING_SIGN ++ lit " Connected but Error: " ++ firstn 80 e)
                        connected
      end
  | None =>
      with_database (WARNING_SIGN ++ lit " Available but not initialized") initial_report
  end.

(* ===================================================================== *)
(** * Users, journal, meditation and payments *)
(* ===================================================================== *)

(** What leaves a handler other than its reply: an [HTTPException] it
    raised, a pydantic [ValidationError] on the named fields, or an
    exception of the database driver with its message. *)
Inductive raised :=
| HTTPException (status_code : Z) (detail : str)
| ValidationError (fields : list str)
| DriverError (message : str).

Definition outcome := sum raised.

(** The status the framework answers with: the one of an [HTTPException],
    500 for any other exception, 200 for a reply. *)
Definition response_status {A : Type} (r : outcome A) : Z :=
  match r with
  | inr _ => 200
  | inl (HTTPException status_code _) => status_code
  | inl _ => 500
  end.

(** Membership in a [Literal[...]]. *)
Definition is_one_of (allowed : list str) (v : str) : bool :=
  existsb (str_eqb v) allowed.

Definition invalid_fields (checks : list (str * bool)) : list str :=
  map fst (filter (fun c => negb (snd c)) checks).

Definition AUTH_PROVIDERS : list str :=
  [lit "password"; lit "google"; lit "apple"; lit "anonymous"].
Definition STAGES : list str :=
  [lit "Awakening"; lit "Healing"; lit "Embodiment"; lit "Manifestation"; lit "Communion"].
Definition LOCALES : list str := [lit "en"; lit "sw"; lit "yo"; lit "am"].
Definition PAYMENT_PROVIDERS : list str := [lit "stripe"; lit "mpesa"; lit "paypal"].
Definition PAYMENT_STATUSES : list str := [lit "pending"; lit "succeeded"; lit "failed"].

Module UpsertUserRequest.
Record t := {
  display_name : str;
  email : str;
  auth_provider : option str;
  auth_uid : option str;
  stage : option str;
  locale : option str
}.
End UpsertUserRequest.

Module User.
Record t := {
  display_name : str;
  email : str;
  auth_provider : str;
  auth_uid : option str;
  stage : str;
  locale : str;
  avatar_url : option str;
  premium_tier : str
}.
End User.

(** [User(display_name=.., email=.., auth_provider=.., auth_uid=..,
    stage=.., locale=..)]: the three [Literal] fields are checked, the two
    fields left out take their defaults. *)
Definition User_new (display_name email auth_provider : str) (auth_uid : option str)
    (stage locale : str) : outcome User.t :=
  match invalid_fields [ (lit "auth_provider", is_one_of AUTH_PROVIDERS auth_provider);
                         (lit "stage", is_one_of STAGES stage);
                         (lit "locale", is_one_of LOCALES locale) ] with
  | [] => ret {| User.display_name := display_name;
                 User.email := email;
                 User.auth_provider := auth_provider;
                 User.auth_uid := auth_uid;
                 User.stage := stage;
                 User.locale := locale;
                 User.avatar_url := None;
                 User.premium_tier := lit "free" |}
  | bad => raise (ValidationError bad)
  end.

Module StageUpdateRequest.
Record t := { user_id : str; stage : str }.
End StageUpdateRequest.

(** The [$set] document of an [update_one] on the [user] collection. *)
Inductive user_update :=
| SetProfile (data : User.t) (updated_at : Z)
| SetStage (stage : str) (updated_at : Z).

Module JournalEntry.
Record t := {
  user_id : str;
  content : str;
  mood : option str;
  audio_url : option str;
  sentiment : option str;
  theme : option str
}.
End JournalEntry.

Module MeditationSession.
Record t := {
  user_id : str;
  environment : str;
  duration_minutes : Z;
  started_at : option Z;
  completed : bool
}.
End MeditationSession.

Module Payment.
Record t := {
  user_id : str;
  provider : str;
  amount_cents : Z;
  currency : str;
  status : str;
  reference : option str
}.
End Payment.

(** [Payment(user_id=.., provider=.., amount_cents=.., currency=..,
    status=.., reference=..)] *)
Definition Payment_new (user_id provider : str) (amount_cents : Z)
    (currency status : str) (reference : option str) : outcome Payment.t :=
  match invalid_fields [ (lit "provider", is_one_of PAYMENT_PROVIDERS provider);
                         (lit "status", is_one_of PAYMENT_STATUSES status) ] with
  | [] => ret {| Payment.user_id := user_id;
                 Payment.provider := provider;
                 Payment.amount_cents := amount_cents;
                 Payment.currency := currency;
                 Payment.status := status;
                 Payment.reference := reference |}
  | bad => raise (ValidationError bad)
  end.

Module PaymentIntentRequest.
Record t := { user_id : str; provider : str; amount_cents : Z; currency : str }.
End PaymentIntentRequest.

(** What these handlers give [create_document]: the [dict] dumped from a
    [User], or a model. *)
Inductive payload :=
| UserData (u : User.t)
| JournalDoc (e : JournalEntry.t)
| SessionDoc (s : MeditationSession.t)
| PaymentDoc (p : Payment.t).

(** [str(n)] for an [int]. *)
Definition str_of_int (n : Z) : str :=
  if (n <? 0)%Z then HYPHEN :: decimal (- n) else decimal n.

(** [f"SIM-{int(datetime.now().timestamp())}"]: the whole seconds of the
    clock. *)
Definition payment_reference (now : clock) : str :=
  lit "SIM-" ++ str_of_int (epoch_seconds now).

Module UpsertReply.
Record t := { user_id : str; stage : str }.
End UpsertReply.

Module MeditationReply.
Record t := { id : str; started_at : Z }.
End MeditationReply.

Module PaymentReply.
Record t := { id : str; reference : option str; status : str }.
End PaymentReply.

Section Handlers.

Context {store oid : Type}.

(** [bson.ObjectId(s)]: the identifier, or the message of the exception it
    raises on a string that is none. *)
Variable ObjectId : str -> str + oid.

(** [str(existing["_id"])] *)
Variable oid_str : oid -> str.

(** [db.user.find_one({"email": e})], of which the handler reads the
    [_id]: the user found, if any, or the message of the exception the
    driver raises. *)
Variable find_one : store -> str -> str + option oid.

(** [db.user.update_one({"_id": id}, {"$set": u})]: the store after the
    update, or the message of the exception the driver raises. *)
Variable update_one : oid -> user_update -> store -> str + store.

(** Modelled from the spec: [database.create_document], absent from the
    sources; it returns the identifier of the new document, and here the
    store after the write as well. *)
Variable create_document : str -> payload -> store -> str * store.

(** [upsert_user], lines 72 to 94. [db] is [None] when no database is
    configured. *)
Definition upsert_user (db : option store) (now : clock) (payload : UpsertUserRequest.t)
  : outcome (UpsertReply.t * store) :=
  match db with
  | None => raise (HTTPException 500 (lit "Database not configured"))
  | Some st =>
      existing <- match find_one st (UpsertUserRequest.email payload) with
                  | inr found => ret found
                  | inl e => raise (DriverError e)
                  end ;;
      data <- User_new (UpsertUserRequest.display_name payload)
                       (UpsertUserRequest.email payload)
                       (py_or (UpsertUserRequest.auth_provider payload) (lit "anonymous"))
                       (UpsertUserRequest.auth_uid payload)
                       (py_or (UpsertUserRequest.stage payload) (lit "Awakening"))
                       (py_or (UpsertUserRequest.locale payload) (lit "en")) ;;
      match existing with
      | Some id =>
          match update_one id (SetProfile data (epoch_seconds now)) st with
          | inr st' =>
              ret ({| UpsertReply.user_id := oid_str id;
                      UpsertReply.stage := User.stage data |}, st')
          | inl e => raise (DriverError e)
          end
      | None =>
          let '(user_id, st') := create_document (lit "user") (UserData data) st in
          ret ({| UpsertReply.user_id := user_id;
                  UpsertReply.stage := User.stage data |}, st')
      end
  end.

(** [update_stage], lines 102 to 111: the reply is [{"ok": True}]. *)
Definition update_stage (db : option store) (now : clock) (req : StageUpdateRequest.t)
  : outcome (bool * store) :=
  match db with
  | None => raise (HTTPException 500 (lit "Database not configured"))
  | Some st =>
      match
        match ObjectId (StageUpdateRequest.user_id req) with
        | inr id => update_one id (SetStage (StageUpdateRequest.stage req)
                                            (epoch_seconds now)) st
        | inl e => inl e
        end
      with
      | inr st' => ret (true, st')
      | inl e => raise (HTTPException 400 (lit "Invalid user or stage: " ++ e))
      end
  end.

(** [create_journal], lines 182 to 185: the reply is [{"id": entry_id}]. *)
Definition create_journal (st : store) (entry : JournalEntry.t) : str * store :=
  create_document (lit "journalentry") (JournalDoc entry) st.

(** [start_meditation], lines 243 to 247. *)
Definition start_meditation (now : clock) (st : store) (sess : MeditationSession.t)
  : MeditationReply.t * store :=
  let sess :=
    {| MeditationSession.user_id := MeditationSession.user_id sess;
       MeditationSession.environment := MeditationSession.environment sess;
       MeditationSession.duration_minutes := MeditationSession.duration_minutes sess;
       MeditationSession.started_at := Some (epoch_seconds now);
       MeditationSession.completed := MeditationSession.completed sess |} in
  let '(sess_id, st') := create_document (lit "meditationsession") (SessionDoc sess) st in
  ({| MeditationReply.id := sess_id;
      MeditationReply.started_at := epoch_seconds now |}, st').

(** [create_payment_intent], lines 277 to 282. *)
Definition create_payment_intent (now : clock) (st : store) (req : PaymentIntentRequest.t)
  : outcome (PaymentReply.t * store) :=
  payment <- Payment_new (PaymentIntentRequest.user_id req)
                         (PaymentIntentRequest.provider req)
                         (PaymentIntentRequest.amount_cents req)
                         (PaymentIntentRequest.currency req)
                         (lit "pending")
                         (Some (payment_reference now)) ;;
  let '(pid, st') := create_document (lit "payment") (PaymentDoc payment) st in
  ret ({| PaymentReply.id := pid;
          PaymentReply.reference := Payment.reference payment;
          PaymentReply.status := Payment.status payment |}, st').

End Handlers.

(** The naming rule of [schemas.py]: a collection is named by the class of
    its model, in lower case. ([s.lower()] on the ASCII letters of a class
    name.) *)
Definition lower (s : str) : str :=
  map (fun c => if between 65 90 c then (c + 32)%N else c) s.

Definition class_name (d : payload) : str :=
  match d with
  | UserData _ => lit "User"
  | JournalDoc _ => lit "JournalEntry"
  | SessionDoc _ => lit "MeditationSession"
  | PaymentDoc _ => lit "Payment"
  end.

Definition document_class_name (d : document) : str :=
  match d with
  | MantraDoc _ => lit "Mantra"
  | OracleDoc _ => lit "OracleConsult"
  end.


(** A store for the samples: the documents in order, a user found by the
    e-mail address and identified by the position of its document. *)
Definition sample_store := list (str * payload).

Definition sample_create (collection : str) (d : payload) (st : sample_store)
  : str * sample_store :=
  (lit "doc" ++ decimal (Z.of_nat (List.length st)), st ++ [(collection, d)]).

Fixpoint sample_lookup (email : str) (st : sample_store) (i : nat) : option nat :=
  match st with
  | [] => None
  | (_, UserData u) :: rest =>
      if str_eqb (User.email u) email then Some i else sample_lookup email rest (S i)
  | _ :: rest => sample_lookup email rest (S i)
  end.

Definition sample_find (st : sample_store) (email : str) : str + option nat :=
  inr (sample_lookup email st 0).

Definition apply_update (u : user_update) (d : payload) : payload :=
  match u, d with
  | SetProfile data _, UserData _ => UserData data
  | SetStage stage _, UserData old =>
      UserData {| User.display_name := User.display_name old;
                  User.email := User.email old;
                  User.auth_provider := User.auth_provider old;
                  User.auth_uid := User.auth_uid old;
                  User.stage := stage;
                  User.locale := User.locale old;
                  User.avatar_url := User.avatar_url old;
                  User.premium_tier := User.premium_tier old |}
  | _, _ => d
  end.

Fixpoint sample_replace (id : nat) (u : user_update) (st : sample_store) : sample_store :=
  match st, id with
  | [], _ => []
  | (c, d) :: rest, O => (c, apply_update u d) :: rest
  | cd :: rest, S id' => cd :: sample_replace id' u rest
  end.

Definition sample_update (id : nat) (u : user_update) (st : sample_store)
  : str + sample_store :=
  inr (sample_replace id u st).

(** A sample parser of identifiers: a string of twenty-four characters is
    read as the identifier 0, any other is refused with a message. *)
Definition sample_object_id (s : str) : str + nat :=
  if (List.length s =? 24)%nat then inr 0%nat
  else inl (s ++ lit " is not a valid ObjectId").

Definition sample_oid_str (id : nat) : str := lit "doc" ++ decimal (Z.of_nat id).

Definition sample_payload : UpsertUserRequest.t :=
  {| UpsertUserRequest.display_name := lit "Amina";
     UpsertUserRequest.email := lit "amina@example.org";
     UpsertUserRequest.auth_provider := None;
     UpsertUserRequest.auth_uid := None;
     UpsertUserRequest.stage := Some (lit "Healing");
     UpsertUserRequest.locale := Some (lit "sw") |}.

Definition premium_user : User.t :=
  {| User.display_name := lit "Amina";
     User.email := lit "amina@example.org";
     User.auth_provider := lit "google";
     User.auth_uid := None;
     User.stage := lit "Awakening";
     User.locale := lit "en";
     User.avatar_url := Some (lit "https://example.org/a.png");
     User.premium_tier := lit "premium" |}.

Definition sample_session : MeditationSession.t :=
  {| MeditationSession.user_id := lit "u1";
     MeditationSession.environment := lit "forest";
     MeditationSession.duration_minutes := 10;
     MeditationSession.started_at := None;
     MeditationSession.completed := false |}.

Definition sample_intent : PaymentIntentRequest.t :=
  {| PaymentIntentRequest.user_id := lit "u1";
     PaymentIntentRequest.provider := lit "mpesa";
     PaymentIntentRequest.amount_cents := 500;
     PaymentIntentRequest.currency := lit "KES" |}.

(* ===================================================================== *)
(** * Vocabulary of the statements *)
(* ===================================================================== *)

(** The provider call ends in an exception: [requests.post] raised, the
    status was an error, the body was not JSON, a field was missing or
    the content was not a string. *)
Definition provider_fails (post : provider) (rq : http_request) : Prop :=
  exists e, call_provider post rq = inl e.


(** One of the four characters that [strip("- \u2022\n ")] removes. *)
Definition marker (c : N) : Prop :=
  c = HYPHEN \/ c = SP \/ c = BULLET \/ c = LF.

(** [seg] is [line] without the markers at its two ends: only markers were
    removed, and none is left at either end. *)
Definition stripped_of (line seg : str) : Prop :=
  exists pre post,
    line = pre ++ seg ++ post
    /\ Forall marker pre /\ Forall marker post
    /\ (forall c r, seg = c :: r -> ~ marker c)
    /\ (forall r c, seg = r ++ [c] -> ~ marker c).

(** A line that is not blank: [if p.strip()]. *)
Definition not_blank (line : str) : bool := truthy (strip line).

(** A line that holds a character other than a marker. *)
Definition speaks (line : str) : bool :=
  existsb (fun c => negb (mem markers c)) line.

(** A message that is not empty and whose lines, when not blank, each hold
    a character other than a marker. *)
Definition substantial (msg : str) : bool :=
  truthy msg
  && forallb (fun line => implb (not_blank line) (speaks line)) (split LF msg).

(** A decimal digit. *)
Definition digit (c : N) : bool := between 48 57 c.

(** [n] printed in a field of [width] digits fills it exactly. *)
Definition fills (width : nat) (n : nat) : bool :=
  let s := zero_padded width (Z.of_nat n) in
  (List.length s =? width)%nat && forallb digit s.

(** The shape YYYY-MM-DD of an ISO-8601 calendar date. *)
Definition calendar_date_format (s : str) : Prop :=
  exists y m d,
    s = y ++ [HYPHEN] ++ m ++ [HYPHEN] ++ d
    /\ List.length y = 4%nat /\ List.length m = 2%nat /\ List.length d = 2%nat
    /\ forallb digit (y ++ m ++ d) = true.

(** The days, counted from 1970-01-01, that [datetime.date] can hold:
    0001-01-01 to 9999-12-31. *)
Definition representable_day (z : Z) : Prop :=
  (-719162 <= z <= 2932896)%Z.

(** The day number of the local wall clock, and of the same instant in UTC. *)
Definition local_day (c : clock) : Z := ((epoch_seconds c + utcoffset c) / 86400)%Z.
Definition utc_day (c : clock) : Z := (epoch_seconds c / 86400)%Z.

(* ===================================================================== *)
(** * Facts about the string operations *)
(* ===================================================================== *)

Section StringFacts.

Variable p : N -> bool.

Lemma dropwhile_prefix (s : str) :
  exists pre, s = pre ++ dropwhile p s /\ Forall (fun c => p c = true) pre.
Proof.
  induction s as [|c s IH]; simpl.
  - exists []. split; [reflexivity | constructor].
  - destruct (p c) eqn:Hc.
    + destruct IH as [pre [E F]]. exists (c :: pre). split.
      * simpl. now rewrite <- E.
      * now constructor.
    + exists []. split; [reflexivity | constructor].
Qed.

Lemma dropwhile_head (s : str) (c : N) (r : str) :
  dropwhile p s = c :: r -> p c = false.
Proof.
  induction s as [|a s IH]; simpl; [discriminate|].
  destruct (p a) eqn:Ha; [exact IH|].
  intros E. injection E as -> _. exact Ha.
Qed.

Lemma dropwhile_keeps (s : str) (c : N) :
  In c s -> p c = false -> In c (dropwhile p s).
Proof.
  induction s as [|a s IH]; simpl; [tauto|].
  intros [->|Hin] Hc.
  - rewrite Hc. now left.
  - destruct (p a); [now apply IH | now right].
Qed.

Lemma dropwhile_fixed (s : str) :
  (forall c r, s = c :: r -> p c = false) -> dropwhile p s = s.
Proof.
  destruct s as [|a s]; simpl; [reflexivity|].
  intros H. now rewrite (H a s eq_refl).
Qed.

(** What [strip_by] removes and what it leaves: a run of accepted
    characters at each end, around a string that neither starts nor ends
    with an accepted character. *)
Lemma strip_by_spec (s : str) :
  exists pre post,
    s = pre ++ strip_by p s ++ post
    /\ Forall (fun c => p c = true) pre
    /\ Forall (fun c => p c = true) post
    /\ (forall c r, strip_by p s = c :: r -> p c = false)
    /\ (forall r c, strip_by p s = r ++ [c] -> p c = false).
Proof.
  unfold strip_by, rstrip_by, lstrip_by.
  destruct (dropwhile_prefix s) as [pre [Es Fpre]].
  destruct (dropwhile_prefix (rev (dropwhile p s))) as [tl [Et Ftl]].
  set (t := dropwhile p s) in *.
  set (u := dropwhile p (rev t)) in *.
  assert (Ht : t = rev u ++ rev tl).
  { rewrite <- rev_app_distr, <- Et. now rewrite rev_involutive. }
  exists pre, (rev tl). repeat split.
  - now rewrite <- Ht.
  - exact Fpre.
  - apply Forall_rev. exact Ftl.
  - intros c r E. apply (dropwhile_head s c (r ++ rev tl)).
    fold t. rewrite Ht, E. reflexivity.
  - intros r c E. apply (dropwhile_head (rev t) c (rev r)).
    fold u. rewrite <- (rev_involutive u), E, rev_app_distr. reflexivity.
Qed.

Lemma strip_by_keeps (s : str) (c : N) :
  In c s -> p c = false -> In c (strip_by p s).
Proof.
  intros Hin Hc. unfold strip_by, rstrip_by, lstrip_by.
  apply -> in_rev. apply dropwhile_keeps; [|exact Hc].
  apply -> in_rev. now apply dropwhile_keeps.
Qed.

Lemma strip_by_nonempty (s : str) :
  existsb (fun c => negb (p c)) s = true -> strip_by p s <> [].
Proof.
  intros H. apply existsb_exists in H. destruct H as [c [Hin Hc]].
  apply negb_true_iff in Hc.
  intros E. pose proof (strip_by_keeps s c Hin Hc) as K.
  rewrite E in K. exact K.
Qed.

Lemma strip_by_nil : strip_by p [] = [].
Proof. reflexivity. Qed.

End StringFacts.

Lemma truthy_true (s : str) : truthy s = true <-> s <> [].
Proof. destruct s; simpl; split; congruence. Qed.

Lemma split_not_nil (sep : N) (s : str) : split sep s <> [].
Proof.
  induction s as [|c s IH]; simpl; [discriminate|].
  destruct (c =? sep)%N; [discriminate|].
  destruct (split sep s); discriminate.
Qed.

(** Splitting loses nothing: joining the pieces with the separator gives
    the string back. *)
Lemma join_split (sep : N) (s : str) : join [sep] (split sep s) = s.
Proof.
  induction s as [|c s IH]; [reflexivity|].
  simpl split. destruct (N.eqb_spec c sep) as [->|Hne].
  - pose proof (split_not_nil sep s) as Hn.
    destruct (split sep s) as [|q qs] eqn:E; [congruence|].
    change (join [sep] ([] :: q :: qs)) with ([] ++ [sep] ++ join [sep] (q :: qs)).
    now rewrite IH.
  - pose proof (split_not_nil sep s) as Hn.
    destruct (split sep s) as [|q qs] eqn:E; [congruence|].
    destruct qs as [|q' qs'].
    + simpl in *. now rewrite IH.
    + change (join [sep] ((c :: q) :: q' :: qs'))
        with (c :: (q ++ [sep] ++ join [sep] (q' :: qs'))).
      change (join [sep] (q :: q' :: qs'))
        with (q ++ [sep] ++ join [sep] (q' :: qs')) in IH.
      now rewrite IH.
Qed.

(** No piece holds the separator. *)
Lemma split_pieces (sep : N) (s : str) :
  Forall (fun piece => ~ In sep piece) (split sep s).
Proof.
  induction s as [|c s IH]; simpl.
  - constructor; [tauto | constructor].
  - destruct (N.eqb_spec c sep) as [->|Hne].
    + constructor; [tauto | exact IH].
    + destruct (split sep s) as [|q qs]; [repeat constructor; simpl; intuition|].
      inversion IH as [|? ? Hq Hqs]; subst.
      constructor; [|exact Hqs]. simpl. intros [E|Hin]; [congruence | tauto].
Qed.

Lemma startswith_iff (a s : str) :
  startswith a s = true <-> exists post, s = a ++ post.
Proof.
  revert s; induction a as [|x a IH]; intros s; simpl.
  - split; [intros _; now exists s | reflexivity].
  - destruct s as [|y s].
    + split; [discriminate | intros [post E]; discriminate].
    + rewrite andb_true_iff, N.eqb_eq, IH. split.
      * intros [-> [post ->]]. now exists post.
      * intros [post E]. injection E as -> ->. split; [reflexivity | now exists post].
Qed.

(** [needle in hay] decides [substring]. *)
Lemma contains_iff (needle hay : str) :
  contains needle hay = true <-> substring needle hay.
Proof.
  unfold substring. induction hay as [|y hay IH]; simpl.
  - rewrite orb_false_r, startswith_iff. split.
    + intros [post E]. now exists [], post.
    + intros [pre [post E]]. destruct pre; simpl in E.
      * now exists post.
      * discriminate.
  - rewrite orb_true_iff, startswith_iff, IH. split.
    + intros [[post E] | [pre [post E]]].
      * now exists [], post.
      * exists (y :: pre), post. simpl. now rewrite E.
    + intros [pre [post E]]. destruct pre as [|z pre]; simpl in E.
      * left. now exists post.
      * right. injection E as _ E. now exists pre, post.
Qed.

Lemma substring_middle (pre needle post : str) :
  contains needle (pre ++ needle ++ post) = true.
Proof. apply contains_iff. now exists pre, post. Qed.

Lemma mem_markers (c : N) :
  mem markers c = true <-> c = HYPHEN \/ c = SP \/ c = BULLET \/ c = LF.
Proof.
  unfold mem, markers. simpl. rewrite !orb_true_iff, !N.eqb_eq. intuition congruence.
Qed.

(* ===================================================================== *)
(** * The provider path *)
(* ===================================================================== *)


Lemma credential_none (k : option str) :
  credential k = None <-> k = None \/ k = Some [].
Proof.
  destruct k as [[|c s]|]; simpl; split; try tauto; try discriminate.
  - intros [E|E]; discriminate.
Qed.

(** The [try] of [generate_mantra] and its handler, case by case. *)
Lemma mantra_content_cases (post : provider) (k : option str) (req : MantraRequest.t) :
  mantra_content post k req =
  inr match credential k with
      | Some key =>
          match call_provider post (mantra_request key req) with
          | inr msg => split_message msg
          | inl _ => mantra_on_error
          end
      | None => mantra_fallback req
      end.
Proof.
  unfold mantra_content. destruct (credential k) as [key|]; [|reflexivity].
  simpl. destruct (call_provider post (mantra_request key req)); reflexivity.
Qed.

Lemma oracle_content_cases (post : provider) (k : option str) (consult : OracleConsult.t) :
  oracle_content post k consult =
  inr match credential k with
      | Some key =>
          match call_provider post (oracle_request key consult) with
          | inr msg => oracle_on_success msg
          | inl _ => oracle_on_error
          end
      | None => oracle_fallback
      end.
Proof.
  unfold oracle_content. destruct (credential k) as [key|]; [|reflexivity].
  simpl. destruct (call_provider post (oracle_request key consult)); reflexivity.
Qed.

(** Each way the call can go wrong ends in an exception of the [try]
    block: a raised request, an error status, a body that is not JSON, a
    missing field, an empty list of choices, a content that is no string. *)
Lemma provider_error_kinds (rq : http_request) :
  call_provider (failing Timeout) rq = inl Timeout
  /\ call_provider (failing ConnectionError) rq = inl ConnectionError
  /\ call_provider server_error rq = inl (HTTPError 500)
  /\ call_provider
       (fun _ => inr {| Response.status_code := 200; Response.body := None |}) rq
     = inl JSONDecodeError
  /\ call_provider
       (fun _ => inr {| Response.status_code := 200;
                        Response.body := Some (JObject [(lit "error", JNull)]) |}) rq
     = inl KeyError
  /\ call_provider
       (fun _ => inr {| Response.status_code := 200;
                        Response.body := Some (JObject [(lit "choices", JArray [])]) |}) rq
     = inl IndexError
  /\ call_provider (answering JNull) rq = inl AttributeError.
Proof. repeat split; reflexivity. Qed.

Lemma error_status_fails (post : provider) (rq : http_request) (resp : Response.t) :
  post rq = inr resp ->
  (400 <= Response.status_code resp < 600)%Z ->
  call_provider post rq = inl (HTTPError (Response.status_code resp)).
Proof.
  intros E [Hlo Hhi]. unfold call_provider. rewrite E. simpl.
  unfold message_content, raise_for_status. simpl.
  apply Z.leb_le in Hlo. apply Z.ltb_lt in Hhi. now rewrite Hlo, Hhi.
Qed.

(** A status outside 400 to 599 does not raise: [raise_for_status] lets a
    304 through, and the body is read as usual. *)
Lemma other_status_is_read (rq : http_request) :
  call_provider
    (fun _ => inr {| Response.status_code := 304;
                     Response.body := Some (completion (JString (lit "Peace"))) |}) rq
  = inr (lit "Peace").
Proof. reflexivity. Qed.

Lemma answering_string (s : str) (rq : http_request) :
  call_provider (answering (JString s)) rq = inr (strip s).
Proof. reflexivity. Qed.

Section EndpointFacts.

Context {store doc_id : Type}.
Variable create_document : str -> document -> store -> doc_id * store.

(** [generate_mantra] returns: the reply carries the content the branch
    produced and the day of the local clock, and the document written
    is the one built from them. *)
Lemma generate_mantra_returns (env : environment) (db : store) (req : MantraRequest.t) :
  exists text meaning,
    mantra_content (post env) (OPENAI_API_KEY env) req = inr (text, meaning)
    /\ let today := isoformat (date_today (now env)) in
       let doc := {| Mantra.user_id := MantraRequest.user_id req;
                     Mantra.text := text;
                     Mantra.meaning := Some meaning;
                     Mantra.stage := MantraRequest.user_stage req;
                     Mantra.mood := MantraRequest.user_mood req;
                     Mantra.journal_theme := MantraRequest.recent_journal_theme req;
                     Mantra.date := Some today |} in
       let stored := create_document (lit "mantra") (MantraDoc doc) db in
       generate_mantra create_document env db req
       = inr ({| MantraReply.id := fst stored; MantraReply.date := today;
                 MantraReply.text := text; MantraReply.meaning := meaning |},
              snd stored).
Proof.
  unfold generate_mantra. rewrite mantra_content_cases.
  match goal with |- context [inr ?c] => destruct c as [text meaning] eqn:E end.
  exists text, meaning. split; [reflexivity|]. simpl.
  destruct (create_document _ _ db); reflexivity.
Qed.

Lemma oracle_returns (env : environment) (db : store) (consult : OracleConsult.t) :
  exists interpretation refs,
    oracle_content (post env) (OPENAI_API_KEY env) consult = inr (interpretation, refs)
    /\ let doc := {| OracleConsult.user_id := OracleConsult.user_id consult;
                     OracleConsult.prompt := OracleConsult.prompt consult;
                     OracleConsult.interpretation := Some interpretation;
                     OracleConsult.references := Some refs |} in
       let stored := create_document (lit "oracleconsult") (OracleDoc doc) db in
       oracle create_document env db consult
       = inr ({| OracleReply.id := fst stored;
                 OracleReply.interpretation := interpretation;
                 OracleReply.references := refs |},
              snd stored).
Proof.
  unfold oracle. rewrite oracle_content_cases.
  match goal with |- context [inr ?c] => destruct c as [interpretation refs] eqn:E end.
  exists interpretation, refs. split; [reflexivity|]. simpl.
  destruct (create_document _ _ db); reflexivity.
Qed.

End EndpointFacts.

(* ===================================================================== *)
(** * The claims *)
(* ===================================================================== *)

Lemma returned_inj {A : Type} (a b : A) : @inr exn A a = inr b -> a = b.
Proof. intros E. now injection E. Qed.

Lemma mantra_error_is_not_fallback (req : MantraRequest.t) :
  mantra_on_error <> mantra_fallback req.
Proof.
  intros E. apply (f_equal snd) in E. vm_compute in E. discriminate E.
Qed.

Lemma oracle_error_is_not_fallback : oracle_on_error <> oracle_fallback.
Proof.
  intros E. apply (f_equal snd) in E. vm_compute in E. discriminate E.
Qed.

(** C2, as stated, fails: with a credential configured and the provider
    answering 500, the mantra is "I am Divine Flow. Ashe." with its own
    meaning, and the oracle answers with the balance sentence and the river
    proverb; without a credential the same requests get the templated
    sentence and the two terminology references. *)
Lemma failure_content_differs_from_disabled_content :
  provider_fails server_error (mantra_request sample_key centered_request)
  /\ mantra_content server_error (Some sample_key) centered_request
     <> mantra_content server_error None centered_request
  /\ provider_fails server_error (oracle_request sample_key river_consult)
  /\ oracle_content server_error (Some sample_key) river_consult
     <> oracle_content server_error None river_consult.
Proof.
  repeat split.
  - exists (HTTPError 500). reflexivity.
  - intros E. vm_compute in E. discriminate E.
  - exists (HTTPError 500). reflexivity.
  - intros E. vm_compute in E. discriminate E.
Qed.

(** C2 (amended): when a credential is configured and the provider call
    fails, the mantra is the fixed pair of the handler, "I am Divine Flow.
    Ashe." and "Return to breath and remember: ...", whatever the request,
    and the oracle is the fixed pair of its handler, "Your dream reflects a
    call to balance. ..." with the one proverb as references; neither is
    the content produced when no credential is configured. *)
Theorem failure_content_is_the_handler_content :
  forall (post : provider) (k : option str) (key : str)
         (req : MantraRequest.t) (consult : OracleConsult.t),
    credential k = Some key ->
    (provider_fails post (mantra_request key req) ->
       mantra_content post k req
       = inr (lit "I am Divine Flow. Ashe.",
              lit "Return to breath and remember: your path is guided by ancestors and inner light.")
       /\ mantra_content post k req <> mantra_content post None req)
    /\ (provider_fails post (oracle_request key consult) ->
          oracle_content post k consult
          = inr (lit "Your dream reflects a call to balance. Honor breath, pour libation (water), and affirm your worth.",
                 [lit "Proverb: A river that forgets its source will dry up."])
          /\ oracle_content post k consult <> oracle_content post None consult).
Proof.
  intros post k key req consult Hk. split.
  - intros [e He]. rewrite !mantra_content_cases, Hk, He. simpl credential. split.
    + reflexivity.
    + intros E. apply returned_inj in E. exact (mantra_error_is_not_fallback req E).
  - intros [e He]. rewrite !oracle_content_cases, Hk, He. simpl credential. split.
    + reflexivity.
    + intros E. apply returned_inj in E. exact (oracle_error_is_not_fallback E).
Qed.

Lemma failure_content_is_the_handler_content_witness :
  credential (Some sample_key) = Some sample_key
  /\ provider_fails (failing Timeout) (mantra_request sample_key unset_request)
  /\ mantra_content (failing Timeout) (Some sample_key) unset_request
     = inr (lit "I am Divine Flow. Ashe.",
            lit "Return to breath and remember: your path is guided by ancestors and inner light.").
Proof.
  split; [reflexivity|]. split; [exists Timeout; reflexivity|].
  apply (failure_content_is_the_handler_content
           (failing Timeout) (Some sample_key) sample_key unset_request river_consult
           eq_refl).
  exists Timeout. reflexivity.
Defined.

Section Claims.

Context {store doc_id : Type}.
Variable create_document : str -> document -> store -> doc_id * store.

(** C6: without a credential, the request with mood "centered", stage
    "Awakening" and theme "clarity" is answered with the text "I walk in
    clarity, breathing centered, embodying Awakening. Ashe." and the
    encouragement sentence as meaning. *)
Theorem centered_awakening_clarity_scenario :
  forall (env : environment) (db : store) (uid : str),
    credential (OPENAI_API_KEY env) = None ->
    exists reply db',
      generate_mantra create_document env db
        {| MantraRequest.user_id := uid;
           MantraRequest.user_mood := Some (lit "centered");
           MantraRequest.user_stage := Some (lit "Awakening");
           MantraRequest.recent_journal_theme := Some (lit "clarity") |}
      = inr (reply, db')
      /\ MantraReply.text reply
         = lit "I walk in clarity, breathing centered, embodying Awakening. Ashe."
      /\ MantraReply.meaning reply
         = lit "Let this guide your day with grounded presence and ancestral support.".
Proof.
  intros env db uid Hk.
  match goal with |- context [generate_mantra _ _ _ ?r] => set (req := r) end.
  destruct (generate_mantra_returns create_document env db req)
    as [text [meaning [Hc Hg]]].
  cbv zeta in Hg. rewrite Hg. eexists; eexists. split; [reflexivity|].
  rewrite mantra_content_cases, Hk in Hc. injection Hc as <- <-.
  split; reflexivity.
Qed.

(** C7: without a credential, the oracle asked "I dreamed of a river"
    answers with the fixed alignment sentence and exactly the two
    references "Ashe (vital force)" and "Ngai (divine source)". *)
Theorem river_dream_scenario :
  forall (env : environment) (db : store) (uid : option str),
    credential (OPENAI_API_KEY env) = None ->
    exists reply db',
      oracle create_document env db
        {| OracleConsult.user_id := uid;
           OracleConsult.prompt := lit "I dreamed of a river";
           OracleConsult.interpretation := None;
           OracleConsult.references := None |}
      = inr (reply, db')
      /\ OracleReply.interpretation reply
         = lit "This symbol speaks of alignment. Practice heart-centered breath and offer gratitude to ancestors."
      /\ OracleReply.references reply
         = [lit "Ashe (vital force)"; lit "Ngai (divine source)"]
      /\ OracleReply.references reply <> [].
Proof.
  intros env db uid Hk.
  match goal with |- context [oracle _ _ _ ?c] => set (consult := c) end.
  destruct (oracle_returns create_document env db consult)
    as [interpretation [refs [Hc Hg]]].
  cbv zeta in Hg. rewrite Hg. eexists; eexists. split; [reflexivity|].
  rewrite oracle_content_cases, Hk in Hc. injection Hc as <- <-.
  repeat split. discriminate.
Qed.

(** C9: without a credential, two generations for the same request give
    the same text and meaning, and two consultations for the same prompt
    the same interpretation and references, whatever the two stores, the
    two clocks and the two networks are; only the identifier and the date
    of the replies can differ. *)
Theorem disabled_generation_is_repeatable :
  forall (env1 env2 : environment) (db1 db2 : store)
         (req : MantraRequest.t) (consult : OracleConsult.t),
    credential (OPENAI_API_KEY env1) = None ->
    credential (OPENAI_API_KEY env2) = None ->
    (exists r1 d1 r2 d2,
       generate_mantra create_document env1 db1 req = inr (r1, d1)
       /\ generate_mantra create_document env2 db2 req = inr (r2, d2)
       /\ MantraReply.text r1 = MantraReply.text r2
       /\ MantraReply.meaning r1 = MantraReply.meaning r2)
    /\ (exists r1 d1 r2 d2,
          oracle create_document env1 db1 consult = inr (r1, d1)
          /\ oracle create_document env2 db2 consult = inr (r2, d2)
          /\ OracleReply.interpretation r1 = OracleReply.interpretation r2
          /\ OracleReply.references r1 = OracleReply.references r2).
Proof.
  intros env1 env2 db1 db2 req consult H1 H2. split.
  - destruct (generate_mantra_returns create_document env1 db1 req)
      as [t1 [m1 [Hc1 Hg1]]].
    destruct (generate_mantra_returns create_document env2 db2 req)
      as [t2 [m2 [Hc2 Hg2]]].
    cbv zeta in Hg1, Hg2. rewrite Hg1, Hg2.
    rewrite mantra_content_cases, H1 in Hc1. rewrite mantra_content_cases, H2 in Hc2.
    injection Hc1 as <- <-. injection Hc2 as <- <-.
    do 4 eexists. repeat split.
  - destruct (oracle_returns create_document env1 db1 consult)
      as [i1 [f1 [Hc1 Hg1]]].
    destruct (oracle_returns create_document env2 db2 consult)
      as [i2 [f2 [Hc2 Hg2]]].
    cbv zeta in Hg1, Hg2. rewrite Hg1, Hg2.
    rewrite oracle_content_cases, H1 in Hc1. rewrite oracle_content_cases, H2 in Hc2.
    injection Hc1 as <- <-. injection Hc2 as <- <-.
    do 4 eexists. repeat split.
Qed.

End Claims.

(* ===================================================================== *)
(** * The calendar and the date format *)
(* ===================================================================== *)

Section Calendar.

Local Open Scope Z_scope.
Local Ltac Zify.zify_post_hook ::= Z.div_mod_to_equations.

Lemma civil_month_day (z : Z) :
  1 <= Date.month (civil_from_days z) <= 12
  /\ 1 <= Date.day (civil_from_days z) <= 31.
Proof.
  cbv beta iota zeta delta [civil_from_days Date.month Date.day].
  set (z' := z + 719468).
  set (era := z' / 146097).
  set (doe := z' - era * 146097).
  assert (Hdoe : 0 <= doe <= 146096) by (subst doe era; lia).
  set (yoe := (doe - doe / 1460 + doe / 36524 - doe / 146096) / 365).
  assert (Hyoe : 0 <= yoe <= 399) by (subst yoe; lia).
  set (doy := doe - (365 * yoe + yoe / 4 - yoe / 100)).
  assert (Hdoy : 0 <= doy <= 365) by (subst doy yoe; lia).
  clearbody doy.
  set (mp := (5 * doy + 2) / 153).
  assert (Hmp : 0 <= mp <= 11) by (subst mp; lia).
  split.
  - destruct (mp <? 10) eqn:E; [apply Z.ltb_lt in E | apply Z.ltb_ge in E]; lia.
  - subst mp. lia.
Qed.

Lemma civil_year (z : Z) :
  representable_day z -> 1 <= Date.year (civil_from_days z) <= 9999.
Proof.
  unfold representable_day. intros Hz.
  cbv beta iota zeta delta [civil_from_days Date.year].
  set (z' := z + 719468).
  set (era := z' / 146097).
  set (doe := z' - era * 146097).
  assert (Hz' : 306 <= z' <= 3652364) by (subst z'; lia).
  assert (Hera : 0 <= era <= 24) by (subst era; lia).
  assert (Hdoe : 0 <= doe <= 146096) by (subst doe era; lia).
  set (yoe := (doe - doe / 1460 + doe / 36524 - doe / 146096) / 365).
  assert (Hyoe : 0 <= yoe <= 399) by (subst yoe; lia).
  set (doy := doe - (365 * yoe + yoe / 4 - yoe / 100)).
  assert (Hdoy : 0 <= doy <= 365) by (subst doy yoe; lia).
  set (mp := (5 * doy + 2) / 153).
  assert (Hmp : 0 <= mp <= 11) by (subst mp; lia).
  set (m := if mp <? 10 then mp + 3 else mp - 9).
  destruct (m <=? 2) eqn:Em.
  - split; [lia|].
    assert (Hm : m <= 2) by (apply Z.leb_le; exact Em).
    assert (Hmp' : 10 <= mp).
    { subst m. destruct (mp <? 10) eqn:E;
        [apply Z.ltb_lt in E | apply Z.ltb_ge in E]; lia. }
    assert (Hlate : 306 <= doy) by (subst mp; lia).
    subst doy yoe doe era. lia.
  - assert (Hm : 2 < m) by (apply Z.leb_gt; exact Em).
    assert (Hmp' : mp < 10).
    { subst m. destruct (mp <? 10) eqn:E;
        [apply Z.ltb_lt in E | apply Z.ltb_ge in E]; lia. }
    assert (Hearly : doy < 306) by (subst mp; lia).
    split; [|lia].
    subst doy yoe doe era. lia.
Qed.

End Calendar.

Lemma fills_four : forallb (fills 4) (seq 0 (Z.to_nat 10000)) = true.
Proof. vm_compute. reflexivity. Qed.

Lemma fills_two : forallb (fills 2) (seq 0 (Z.to_nat 100)) = true.
Proof. vm_compute. reflexivity. Qed.

Lemma zero_padded_fills (width : nat) (bound n : Z) :
  forallb (fills width) (seq 0 (Z.to_nat bound)) = true ->
  (0 <= n < bound)%Z ->
  List.length (zero_padded width n) = width
  /\ forallb digit (zero_padded width n) = true.
Proof.
  intros Hall Hn. rewrite forallb_forall in Hall.
  specialize (Hall (Z.to_nat n)).
  assert (Hin : In (Z.to_nat n) (seq 0 (Z.to_nat bound))) by (apply in_seq; lia).
  specialize (Hall Hin). unfold fills in Hall. cbv zeta in Hall.
  rewrite Z2Nat.id in Hall by lia.
  apply andb_true_iff in Hall. destruct Hall as [Hlen Hdig].
  apply Nat.eqb_eq in Hlen. now split.
Qed.

(** [isoformat] writes YYYY-MM-DD for every date [datetime.date] holds. *)
Lemma isoformat_shape (d : Date.t) :
  (1 <= Date.year d <= 9999)%Z ->
  (1 <= Date.month d <= 12)%Z ->
  (1 <= Date.day d <= 31)%Z ->
  calendar_date_format (isoformat d).
Proof.
  intros Hy Hm Hd.
  destruct (zero_padded_fills 4 10000 (Date.year d) fills_four) as [Ly Dy]; [lia|].
  destruct (zero_padded_fills 2 100 (Date.month d) fills_two) as [Lm Dm]; [lia|].
  destruct (zero_padded_fills 2 100 (Date.day d) fills_two) as [Ld Dd]; [lia|].
  exists (zero_padded 4 (Date.year d)), (zero_padded 2 (Date.month d)),
         (zero_padded 2 (Date.day d)).
  repeat split; try assumption.
  rewrite !forallb_app, Dy, Dm, Dd. reflexivity.
Qed.

Lemma today_shape (c : clock) :
  representable_day (local_day c) -> calendar_date_format (isoformat (date_today c)).
Proof.
  intros H. unfold date_today. fold (local_day c).
  destruct (civil_month_day (local_day c)) as [Hm Hd].
  apply isoformat_shape; [now apply civil_year | exact Hm | exact Hd].
Qed.

(* ===================================================================== *)
(** * Reading a message *)
(* ===================================================================== *)

Lemma marker_iff (c : N) : mem markers c = true <-> marker c.
Proof. exact (mem_markers c). Qed.

Lemma not_marker_iff (c : N) : mem markers c = false <-> ~ marker c.
Proof.
  rewrite <- marker_iff. destruct (mem markers c); split; congruence.
Qed.

(** [strip("- \\u2022\\n ")] against its description. *)
Lemma strip_chars_markers (line : str) :
  stripped_of line (strip_chars markers line).
Proof.
  unfold strip_chars.
  destruct (strip_by_spec (mem markers) line) as [pre [post [E [Fpre [Fpost [Hh Hl]]]]]].
  exists pre, post. repeat split.
  - exact E.
  - eapply Forall_impl; [|exact Fpre]. intros c. apply marker_iff.
  - eapply Forall_impl; [|exact Fpost]. intros c. apply marker_iff.
  - intros c r Hs. apply not_marker_iff. exact (Hh c r Hs).
  - intros r c Hs. apply not_marker_iff. exact (Hl r c Hs).
Qed.

Lemma parts_stripped (msg : str) :
  Forall2 stripped_of (filter not_blank (split LF msg)) (parts msg).
Proof.
  unfold parts. fold not_blank.
  induction (filter not_blank (split LF msg)) as [|l ls IH]; simpl.
  - constructor.
  - constructor; [apply strip_chars_markers | exact IH].
Qed.

Lemma split_message_cases (msg : str) :
  ((2 <= List.length (parts msg))%nat
   /\ split_message msg = (hd [] (parts msg), join [SP] (tl (parts msg))))
  \/ ((List.length (parts msg) < 2)%nat
      /\ split_message msg = (msg, default_meaning)).
Proof.
  unfold split_message. cbv zeta.
  destruct (Nat.leb_spec 2 (List.length (parts msg))); [left | right]; now split.
Qed.

Lemma join_nonempty (sep p : str) (ps : list str) :
  p <> [] -> join sep (p :: ps) <> [].
Proof.
  intros Hp. destruct ps as [|q qs]; simpl; [exact Hp|].
  destruct p; [congruence | discriminate].
Qed.

Lemma parts_nonempty (msg : str) :
  substantial msg = true -> Forall (fun seg => seg <> []) (parts msg).
Proof.
  unfold substantial, parts. intros H. apply andb_true_iff in H.
  destruct H as [_ H]. rewrite forallb_forall in H.
  apply Forall_map. apply Forall_forall. intros line Hin.
  apply filter_In in Hin. destruct Hin as [Hin Hnb].
  specialize (H line Hin). unfold not_blank in H. rewrite Hnb in H. simpl in H.
  unfold strip_chars. now apply strip_by_nonempty.
Qed.

(** A substantial message is read as a text and a meaning that are both
    not empty. *)
Lemma split_message_nonempty (msg : str) :
  substantial msg = true ->
  fst (split_message msg) <> [] /\ snd (split_message msg) <> [].
Proof.
  intros H. pose proof (parts_nonempty msg H) as Hne.
  destruct (split_message_cases msg) as [[Hlen E] | [Hlen E]]; rewrite E; simpl.
  - destruct (parts msg) as [|a [|b r]]; simpl in Hlen; try lia.
    inversion Hne as [|? ? Ha Hr]; subst. inversion Hr as [|? ? Hb Hr']; subst.
    split; [exact Ha|]. simpl tl. now apply join_nonempty.
  - split.
    + unfold substantial in H. apply andb_true_iff in H. destruct H as [H _].
      now apply truthy_true.
    + discriminate.
Qed.


Lemma contains_nil (hay : str) : contains [] hay = true.
Proof. destruct hay; reflexivity. Qed.

Lemma py_or_supplied (o : option str) (d s : str) :
  o = Some s -> s <> [] -> py_or o d = s.
Proof. intros -> H. destruct s; [congruence | reflexivity]. Qed.

Lemma contains_supplied (o : option str) (d s hay : str) :
  o = Some s -> contains (py_or o d) hay = true -> contains s hay = true.
Proof.
  intros -> H. destruct s as [|c s]; [apply contains_nil | exact H].
Qed.

(** The sentence of the fallback holds its three arguments. *)
Lemma mantra_template_contains (theme mood stage : str) :
  contains theme (mantra_template theme mood stage) = true
  /\ contains mood (mantra_template theme mood stage) = true
  /\ contains stage (mantra_template theme mood stage) = true.
Proof.
  unfold mantra_template. repeat split; apply contains_iff.
  - exists (lit "I walk in "),
           (lit ", breathing " ++ mood ++ lit ", embodying " ++ stage ++ lit ". Ashe.").
    reflexivity.
  - exists (lit "I walk in " ++ theme ++ lit ", breathing "),
           (lit ", embodying " ++ stage ++ lit ". Ashe.").
    now rewrite <- !app_assoc.
  - exists (lit "I walk in " ++ theme ++ lit ", breathing " ++ mood ++ lit ", embodying "),
           (lit ". Ashe.").
    now rewrite <- !app_assoc.
Qed.

(* ===================================================================== *)
(** * The claims about messages, dates and prompts *)
(* ===================================================================== *)

(** C1, as stated, fails: a provider that answers 200 with an empty
    content (or one of blanks only) makes the mantra text, and the oracle
    interpretation, the empty string. *)
Lemma empty_answer_gives_empty_text :
  ~ (forall text meaning,
       mantra_content (answering (JString [])) (Some sample_key) unset_request
       = inr (text, meaning) -> text <> [] /\ meaning <> [])
  /\ ~ (forall interpretation refs,
          oracle_content (answering (JString [SP])) (Some sample_key) river_consult
          = inr (interpretation, refs) -> interpretation <> []).
Proof.
  split.
  - intros H. destruct (H [] default_meaning eq_refl) as [Ht _]. now apply Ht.
  - intros H. refine (H [] _ eq_refl eq_refl).
Qed.

(** C3, as stated, fails: a dash at the end of a line is removed as well,
    so the message "Peace-" over "Be still" gives the text "Peace", where
    stripping leading markers and surrounding whitespace leaves "Peace-". *)
Lemma trailing_dash_is_stripped_too :
  mantra_content (answering (JString (lit "Peace-" ++ [LF] ++ lit "Be still")))
                 (Some sample_key) unset_request
  = inr (lit "Peace", lit "Be still")
  /\ claimed_split_message (lit "Peace-" ++ [LF] ++ lit "Be still")
     = (lit "Peace-", lit "Be still")
  /\ split_message (lit "Peace-" ++ [LF] ++ lit "Be still")
     <> claimed_split_message (lit "Peace-" ++ [LF] ++ lit "Be still").
Proof.
  split; [reflexivity|]. split; [reflexivity|].
  intros E. vm_compute in E. discriminate E.
Qed.

(** C3 (amended): the message is the provider's content without the
    whitespace around it. It is cut at the newlines; the lines that are not
    blank are kept, and each gives a segment by removing every hyphen,
    bullet, space and newline at its start and at its end (so a trailing
    dash goes too, a tab or carriage return stays, and a line of markers
    only gives an empty segment). With two segments or more the text is the
    first one and the meaning the others joined by one space; otherwise the
    text is the whole message and the meaning is "A reminder of your inner
    divinity and alignment with Ashe.". *)
Theorem message_is_read_by_segments :
  forall (post : provider) (k : option str) (key : str)
         (req : MantraRequest.t) (msg : str),
    credential k = Some key ->
    call_provider post (mantra_request key req) = inr msg ->
    exists segs,
      join [LF] (split LF msg) = msg
      /\ Forall2 stripped_of (filter not_blank (split LF msg)) segs
      /\ (((2 <= List.length segs)%nat
           /\ mantra_content post k req = inr (hd [] segs, join [SP] (tl segs)))
          \/ ((List.length segs < 2)%nat
              /\ mantra_content post k req
                 = inr (msg, lit "A reminder of your inner divinity and alignment with Ashe."))).
Proof.
  intros post k key req msg Hk Hmsg.
  exists (parts msg). split; [apply join_split|]. split; [apply parts_stripped|].
  rewrite mantra_content_cases, Hk, Hmsg.
  destruct (split_message_cases msg) as [[Hlen E] | [Hlen E]]; rewrite E.
  - left. now split.
  - right. now split.
Qed.

Lemma message_is_read_by_segments_witness :
  credential (Some sample_key) = Some sample_key
  /\ call_provider (answering (JString (lit "- I rise" ++ [LF] ++ lit "Stand tall.")))
                   (mantra_request sample_key unset_request)
     = inr (lit "- I rise" ++ [LF] ++ lit "Stand tall.")
  /\ exists segs,
       join [LF] (split LF (lit "- I rise" ++ [LF] ++ lit "Stand tall."))
       = lit "- I rise" ++ [LF] ++ lit "Stand tall."
       /\ Forall2 stripped_of
            (filter not_blank (split LF (lit "- I rise" ++ [LF] ++ lit "Stand tall.")))
            segs
       /\ (((2 <= List.length segs)%nat
            /\ mantra_content
                 (answering (JString (lit "- I rise" ++ [LF] ++ lit "Stand tall.")))
                 (Some sample_key) unset_request
               = inr (hd [] segs, join [SP] (tl segs)))
           \/ ((List.length segs < 2)%nat
               /\ mantra_content
                    (answering (JString (lit "- I rise" ++ [LF] ++ lit "Stand tall.")))
                    (Some sample_key) unset_request
                  = inr (lit "- I rise" ++ [LF] ++ lit "Stand tall.",
                         lit "A reminder of your inner divinity and alignment with Ashe."))).
Proof.
  split; [reflexivity|]. split; [reflexivity|].
  exact (message_is_read_by_segments
           (answering (JString (lit "- I rise" ++ [LF] ++ lit "Stand tall.")))
           (Some sample_key) sample_key unset_request
           (lit "- I rise" ++ [LF] ++ lit "Stand tall.") eq_refl eq_refl).
Defined.



Section ClaimsOnReplies.

Context {store doc_id : Type}.
Variable create_document : str -> document -> store -> doc_id * store.

(** C1 (amended): [generate_mantra] and [oracle] always return, with a
    text and a meaning (an interpretation and a list of references, also
    in the stored document). Text and meaning are not empty when no
    credential is configured, when the provider call fails, and when the
    provider's message is not empty and each of its lines that is not
    blank holds a character other than a hyphen, a bullet and a space;
    the interpretation is not empty when no credential is configured,
    when the call fails, and when the provider's message is not empty. *)
Theorem generation_returns_content :
  forall (env : environment) (db : store)
         (req : MantraRequest.t) (consult : OracleConsult.t),
    (exists reply db',
       generate_mantra create_document env db req = inr (reply, db')
       /\ (credential (OPENAI_API_KEY env) = None ->
           MantraReply.text reply <> [] /\ MantraReply.meaning reply <> [])
       /\ (forall key,
             credential (OPENAI_API_KEY env) = Some key ->
             provider_fails (post env) (mantra_request key req) ->
             MantraReply.text reply <> [] /\ MantraReply.meaning reply <> [])
       /\ (forall key msg,
             credential (OPENAI_API_KEY env) = Some key ->
             call_provider (post env) (mantra_request key req) = inr msg ->
             substantial msg = true ->
             MantraReply.text reply <> [] /\ MantraReply.meaning reply <> []))
    /\ (exists reply db' doc,
          oracle create_document env db consult = inr (reply, db')
          /\ create_document (lit "oracleconsult") (OracleDoc doc) db
             = (OracleReply.id reply, db')
          /\ OracleConsult.references doc = Some (OracleReply.references reply)
          /\ (credential (OPENAI_API_KEY env) = None ->
              OracleReply.interpretation reply <> [])
          /\ (forall key,
                credential (OPENAI_API_KEY env) = Some key ->
                provider_fails (post env) (oracle_request key consult) ->
                OracleReply.interpretation reply <> [])
          /\ (forall key msg,
                credential (OPENAI_API_KEY env) = Some key ->
                call_provider (post env) (oracle_request key consult) = inr msg ->
                msg <> [] ->
                OracleReply.interpretation reply <> [])).
Proof.
  intros env db req consult. split.
  - destruct (generate_mantra_returns create_document env db req)
      as [text [meaning [Hc Hg]]].
    cbv zeta in Hg. rewrite Hg. eexists; eexists. split; [reflexivity|].
    simpl MantraReply.text. simpl MantraReply.meaning.
    rewrite mantra_content_cases in Hc. apply returned_inj in Hc.
    split; [|split].
    + intros Hk. rewrite Hk in Hc. unfold mantra_fallback in Hc.
      injection Hc as <- <-. split; discriminate.
    + intros key Hk [e He]. rewrite Hk, He in Hc.
      injection Hc as <- <-. split; discriminate.
    + intros key msg Hk Hmsg Hsub. rewrite Hk, Hmsg in Hc.
      destruct (split_message_nonempty msg Hsub) as [Ht Hm].
      rewrite Hc in Ht, Hm. now split.
  - destruct (oracle_returns create_document env db consult)
      as [interpretation [refs [Hc Hg]]].
    cbv zeta in Hg. rewrite Hg. eexists; eexists; eexists.
    split; [reflexivity|].
    split; [simpl OracleReply.id; apply surjective_pairing|].
    split; [reflexivity|].
    simpl OracleReply.interpretation.
    rewrite oracle_content_cases in Hc. apply returned_inj in Hc.
    split; [|split].
    + intros Hk. rewrite Hk in Hc. injection Hc as <- _. discriminate.
    + intros key Hk [e He]. rewrite Hk, He in Hc.
      injection Hc as <- _. discriminate.
    + intros key msg Hk Hmsg Hne. rewrite Hk, Hmsg in Hc.
      injection Hc as <- _. exact Hne.
Qed.

(** C4 (amended): the date of the reply, which is also the date of the
    stored mantra, is the calendar day of the server's local clock at the
    time of the call ([date.today()]), written YYYY-MM-DD; it is the day
    in UTC when the local day and the UTC day are the same day, as they
    are on a server whose local time is UTC. *)
Theorem date_is_the_local_day :
  forall (env : environment) (db : store) (req : MantraRequest.t),
    exists reply db' doc,
      generate_mantra create_document env db req = inr (reply, db')
      /\ create_document (lit "mantra") (MantraDoc doc) db
         = (MantraReply.id reply, db')
      /\ Mantra.date doc = Some (MantraReply.date reply)
      /\ MantraReply.date reply = isoformat (civil_from_days (local_day (now env)))
      /\ (representable_day (local_day (now env)) ->
          calendar_date_format (MantraReply.date reply))
      /\ (local_day (now env) = utc_day (now env) ->
          MantraReply.date reply = isoformat (utc_today (now env)))
      /\ (utcoffset (now env) = 0%Z ->
          MantraReply.date reply = isoformat (utc_today (now env))).
Proof.
  intros env db req.
  destruct (generate_mantra_returns create_document env db req)
    as [text [meaning [Hc Hg]]].
  cbv zeta in Hg. rewrite Hg. eexists; eexists; eexists.
  split; [reflexivity|].
  split; [simpl MantraReply.id; apply surjective_pairing|].
  split; [reflexivity|].
  simpl MantraReply.date.
  split; [reflexivity|].
  split; [apply today_shape|].
  assert (Hsame : local_day (now env) = utc_day (now env) ->
                  isoformat (date_today (now env)) = isoformat (utc_today (now env))).
  { intros E. unfold date_today, utc_today. fold (local_day (now env)).
    fold (utc_day (now env)). now rewrite E. }
  split; [exact Hsame|].
  intros H0. apply Hsame. unfold local_day, utc_day. rewrite H0. f_equal. lia.
Qed.

(** C8: without a credential, the text of the reply holds the mood, the
    stage and the theme of the request wherever they are supplied, and it
    is the sentence "I walk in {theme}, breathing {mood}, embodying
    {stage}. Ashe." in which an absent field is replaced by its default:
    "centered" for the mood, "Awakening" for the stage, "clarity" for the
    theme. *)
Theorem fallback_text_holds_the_fields :
  forall (env : environment) (db : store) (req : MantraRequest.t),
    credential (OPENAI_API_KEY env) = None ->
    exists reply db',
      generate_mantra create_document env db req = inr (reply, db')
      /\ (forall s, MantraRequest.user_mood req = Some s ->
                    contains s (MantraReply.text reply) = true)
      /\ (forall s, MantraRequest.user_stage req = Some s ->
                    contains s (MantraReply.text reply) = true)
      /\ (forall s, MantraRequest.recent_journal_theme req = Some s ->
                    contains s (MantraReply.text reply) = true)
      /\ exists mood stage theme,
           MantraReply.text reply
           = lit "I walk in " ++ theme ++ lit ", breathing " ++ mood
             ++ lit ", embodying " ++ stage ++ lit ". Ashe."
           /\ (MantraRequest.user_mood req = None -> mood = lit "centered")
           /\ (MantraRequest.user_stage req = None -> stage = lit "Awakening")
           /\ (MantraRequest.recent_journal_theme req = None -> theme = lit "clarity")
           /\ (forall s, MantraRequest.user_mood req = Some s -> s <> [] -> mood = s)
           /\ (forall s, MantraRequest.user_stage req = Some s -> s <> [] -> stage = s)
           /\ (forall s, MantraRequest.recent_journal_theme req = Some s ->
                         s <> [] -> theme = s).
Proof.
  intros env db req Hk.
  destruct (generate_mantra_returns create_document env db req)
    as [text [meaning [Hc Hg]]].
  cbv zeta in Hg. rewrite Hg. eexists; eexists. split; [reflexivity|].
  simpl MantraReply.text.
  rewrite mantra_content_cases, Hk in Hc. apply returned_inj in Hc.
  assert (Ht : text = mantra_template
                        (py_or (MantraRequest.recent_journal_theme req) (lit "clarity"))
                        (py_or (MantraRequest.user_mood req) (lit "centered"))
                        (py_or (MantraRequest.user_stage req) (lit "Awakening")))
    by (symmetry; exact (f_equal fst Hc)).
  clear Hc. subst text.
  match goal with
  | |- context [mantra_template ?th ?m ?st] =>
      destruct (mantra_template_contains th m st) as [Cth [Cm Cst]]
  end.
  split; [|split; [|split]].
  - intros s Hs. exact (contains_supplied _ _ s _ Hs Cm).
  - intros s Hs. exact (contains_supplied _ _ s _ Hs Cst).
  - intros s Hs. exact (contains_supplied _ _ s _ Hs Cth).
  - exists (py_or (MantraRequest.user_mood req) (lit "centered")),
           (py_or (MantraRequest.user_stage req) (lit "Awakening")),
           (py_or (MantraRequest.recent_journal_theme req) (lit "clarity")).
    split; [reflexivity|].
    repeat split; try (intros ->; reflexivity);
      intros s Hs Hne; now apply py_or_supplied.
Qed.

End ClaimsOnReplies.

(** C4, as stated, fails: at 22:00 UTC on 2025-11-04, on a server three
    hours east of UTC, the reply is dated 2025-11-05, and the day in UTC is
    2025-11-04. *)
Lemma date_is_not_the_utc_day :
  exists reply db',
    generate_mantra append_document (sample_env None server_error nairobi_evening)
                    [] centered_request
    = inr (reply, db')
    /\ MantraReply.date reply = lit "2025-11-05"
    /\ isoformat (utc_today nairobi_evening) = lit "2025-11-04"
    /\ MantraReply.date reply <> isoformat (utc_today nairobi_evening).
Proof.
  eexists; eexists. split; [reflexivity|]. split; [reflexivity|].
  split; [reflexivity|]. intros E. vm_compute in E. discriminate E.
Qed.

Lemma centered_awakening_clarity_scenario_witness :
  credential (OPENAI_API_KEY (sample_env None server_error utc_noon)) = None
  /\ exists reply db',
       generate_mantra append_document (sample_env None server_error utc_noon) []
         {| MantraRequest.user_id := lit "u1";
            MantraRequest.user_mood := Some (lit "centered");
            MantraRequest.user_stage := Some (lit "Awakening");
            MantraRequest.recent_journal_theme := Some (lit "clarity") |}
       = inr (reply, db')
       /\ MantraReply.text reply
          = lit "I walk in clarity, breathing centered, embodying Awakening. Ashe."
       /\ MantraReply.meaning reply
          = lit "Let this guide your day with grounded presence and ancestral support.".
Proof.
  split; [reflexivity|].
  exact (centered_awakening_clarity_scenario
           append_document (sample_env None server_error utc_noon) [] (lit "u1") eq_refl).
Defined.

Lemma river_dream_scenario_witness :
  credential (OPENAI_API_KEY (sample_env (Some []) server_error utc_noon)) = None
  /\ exists reply db',
       oracle append_document (sample_env (Some []) server_error utc_noon) []
         {| OracleConsult.user_id := None;
            OracleConsult.prompt := lit "I dreamed of a river";
            OracleConsult.interpretation := None;
            OracleConsult.references := None |}
       = inr (reply, db')
       /\ OracleReply.interpretation reply
          = lit "This symbol speaks of alignment. Practice heart-centered breath and offer gratitude to ancestors."
       /\ OracleReply.references reply
          = [lit "Ashe (vital force)"; lit "Ngai (divine source)"]
       /\ OracleReply.references reply <> [].
Proof.
  split; [reflexivity|].
  exact (river_dream_scenario
           append_document (sample_env (Some []) server_error utc_noon) [] None eq_refl).
Defined.

Lemma disabled_generation_is_repeatable_witness :
  credential (OPENAI_API_KEY (sample_env None server_error utc_noon)) = None
  /\ credential (OPENAI_API_KEY
                   (sample_env (Some []) (answering (JString (lit "Peace"))) nairobi_evening))
     = None
  /\ exists r1 d1 r2 d2,
       generate_mantra append_document (sample_env None server_error utc_noon) []
                       centered_request
       = inr (r1, d1)
       /\ generate_mantra append_document
            (sample_env (Some []) (answering (JString (lit "Peace"))) nairobi_evening)
            [(lit "mantra", OracleDoc river_consult)] centered_request
          = inr (r2, d2)
       /\ MantraReply.text r1 = MantraReply.text r2
       /\ MantraReply.meaning r1 = MantraReply.meaning r2.
Proof.
  split; [reflexivity|]. split; [reflexivity|].
  exact (proj1 (disabled_generation_is_repeatable
                  append_document
                  (sample_env None server_error utc_noon)
                  (sample_env (Some []) (answering (JString (lit "Peace"))) nairobi_evening)
                  [] [(lit "mantra", OracleDoc river_consult)]
                  centered_request river_consult eq_refl eq_refl)).
Defined.

Lemma fallback_text_holds_the_fields_witness :
  credential (OPENAI_API_KEY (sample_env None server_error utc_noon)) = None
  /\ exists reply db',
       generate_mantra append_document (sample_env None server_error utc_noon) []
         {| MantraRequest.user_id := lit "u1";
            MantraRequest.user_mood := Some (lit "tender");
            MantraRequest.user_stage := None;
            MantraRequest.recent_journal_theme := Some [] |}
       = inr (reply, db')
       /\ contains (lit "tender") (MantraReply.text reply) = true.
Proof.
  split; [reflexivity|].
  destruct (fallback_text_holds_the_fields
              append_document (sample_env None server_error utc_noon) []
              {| MantraRequest.user_id := lit "u1";
                 MantraRequest.user_mood := Some (lit "tender");
                 MantraRequest.user_stage := None;
                 MantraRequest.recent_journal_theme := Some [] |} eq_refl)
    as [reply [db' [Hg [Hmood _]]]].
  exists reply, db'. split; [exact Hg | exact (Hmood (lit "tender") eq_refl)].
Defined.

(* ===================================================================== *)
(** * Further properties: the provider's answer *)
(* ===================================================================== *)

(** What a body must be for the content to be read. *)
Lemma message_content_inv (resp : Response.t) (msg : str) :
  message_content resp = inr msg ->
  ~ (400 <= Response.status_code resp < 600)%Z
  /\ exists members choice rest message s,
       Response.body resp = Some (JObject members)
       /\ dict_get (lit "choices") members = Some (JArray (JObject choice :: rest))
       /\ dict_get (lit "message") choice = Some (JObject message)
       /\ dict_get (lit "content") message = Some (JString s)
       /\ msg = strip s.
Proof.
  unfold message_content, raise_for_status, resp_json.
  destruct resp as [status body]. cbn [Response.status_code Response.body].
  destruct ((400 <=? status)%Z && (status <? 600)%Z) eqn:Hs; [discriminate|].
  intros H. split.
  - intros [Hlo Hhi]. apply Z.leb_le in Hlo. apply Z.ltb_lt in Hhi.
    rewrite Hlo, Hhi in Hs. discriminate.
  - cbn [bind ret raise Monad_either Exception_either] in H.
    destruct body as [[| | | |items|members]|]; try discriminate H.
    cbn [bind ret raise Monad_either Exception_either getitem] in H.
    destruct (dict_get (lit "choices") members) as [choices|] eqn:Hc;
      [|discriminate H].
    destruct choices as [| | |[|c cs]|[|first rest]|m]; try discriminate H.
    destruct first as [| | | |items|choice]; try discriminate H.
    cbn [bind ret raise Monad_either Exception_either getitem getitem0] in H.
    destruct (dict_get (lit "message") choice) as [message|] eqn:Hm;
      [|discriminate H].
    destruct message as [| | | |items|message]; try discriminate H.
    cbn [bind ret raise Monad_either Exception_either getitem] in H.
    destruct (dict_get (lit "content") message) as [c|] eqn:Hct;
      [|discriminate H].
    destruct c as [| | |s| |]; try discriminate H.
    cbn [bind ret raise Monad_either Exception_either strip_method] in H.
    apply returned_inj in H.
    exists members, choice, rest, message, s. repeat split; congruence.
Qed.

Lemma message_content_intro (resp : Response.t) (members choice message : list (str * json))
    (rest : list json) (s : str) :
  ~ (400 <= Response.status_code resp < 600)%Z ->
  Response.body resp = Some (JObject members) ->
  dict_get (lit "choices") members = Some (JArray (JObject choice :: rest)) ->
  dict_get (lit "message") choice = Some (JObject message) ->
  dict_get (lit "content") message = Some (JString s) ->
  message_content resp = inr (strip s).
Proof.
  intros Hs Hb Hc Hm Hct.
  unfold message_content, raise_for_status, resp_json.
  destruct ((400 <=? Response.status_code resp)%Z && (Response.status_code resp <? 600)%Z)
    eqn:E.
  - exfalso. apply Hs. apply andb_true_iff in E. destruct E as [Hlo Hhi].
    apply Z.leb_le in Hlo. apply Z.ltb_lt in Hhi. now split.
  - rewrite Hb. cbn [bind ret Monad_either getitem]. rewrite Hc.
    cbn [bind ret Monad_either getitem0 getitem]. rewrite Hm.
    cbn [bind ret Monad_either getitem]. rewrite Hct. reflexivity.
Qed.

(** X1: the content of an answer is read exactly when the status is not
    between 400 and 599 and the body is a JSON object whose "choices" is a
    list starting with an object, whose "message" is an object, whose
    "content" is a string; the message is then that string without the
    whitespace around it. Any other answer raises inside the [try]. *)
Theorem answer_is_read_iff_well_formed :
  forall (resp : Response.t) (msg : str),
    message_content resp = inr msg
    <-> (~ (400 <= Response.status_code resp < 600)%Z
         /\ exists members choice rest message s,
              Response.body resp = Some (JObject members)
              /\ dict_get (lit "choices") members = Some (JArray (JObject choice :: rest))
              /\ dict_get (lit "message") choice = Some (JObject message)
              /\ dict_get (lit "content") message = Some (JString s)
              /\ msg = strip s).
Proof.
  intros resp msg. split.
  - apply message_content_inv.
  - intros [Hs [members [choice [rest [message [s [Hb [Hc [Hm [Hct ->]]]]]]]]]].
    now apply (message_content_intro resp members choice message rest s).
Qed.

Lemma call_provider_strips (post : provider) (rq : http_request) (msg : str) :
  call_provider post rq = inr msg -> exists s, msg = strip s.
Proof.
  unfold call_provider. destruct (post rq) as [e|resp]; [discriminate|].
  cbn [bind Monad_either]. intros H.
  destruct (message_content_inv resp msg H)
    as [_ [members [choice [rest [message [s [_ [_ [_ [_ E]]]]]]]]]].
  now exists s.
Qed.

Lemma strip_ends (s : str) :
  (forall c r, strip s = c :: r -> isspace c = false)
  /\ (forall r c, strip s = r ++ [c] -> isspace c = false).
Proof.
  unfold strip.
  destruct (strip_by_spec isspace s) as [pre [post [_ [_ [_ [Hh Hl]]]]]].
  now split.
Qed.

(** X2: a message read from the provider neither starts nor ends with a
    whitespace character; so neither does the interpretation the oracle
    returns on success. *)
Theorem provider_message_has_no_outer_whitespace :
  forall (post : provider) (rq : http_request) (msg : str),
    call_provider post rq = inr msg ->
    (forall c r, msg = c :: r -> isspace c = false)
    /\ (forall r c, msg = r ++ [c] -> isspace c = false).
Proof.
  intros post rq msg H. destruct (call_provider_strips post rq msg H) as [s ->].
  apply strip_ends.
Qed.

Lemma provider_message_has_no_outer_whitespace_witness :
  call_provider (answering (JString ([SP; SP] ++ lit "Be still" ++ [LF])))
                (oracle_request sample_key river_consult)
  = inr (lit "Be still")
  /\ (forall c r, lit "Be still" = c :: r -> isspace c = false)
  /\ (forall r c, lit "Be still" = r ++ [c] -> isspace c = false).
Proof.
  split; [reflexivity|].
  exact (provider_message_has_no_outer_whitespace
           (answering (JString ([SP; SP] ++ lit "Be still" ++ [LF])))
           (oracle_request sample_key river_consult) (lit "Be still") eq_refl).
Defined.

(* ===================================================================== *)
(** * Further properties: lines of a message *)
(* ===================================================================== *)

(** [split] at the first separator. *)
Lemma split_first (sep : N) (s : str) :
  (~ In sep s /\ split sep s = [s])
  \/ (exists a b, s = a ++ sep :: b /\ ~ In sep a /\ split sep s = a :: split sep b).
Proof.
  induction s as [|c s IH].
  - left. split; [tauto | reflexivity].
  - simpl split. destruct (N.eqb_spec c sep) as [->|Hne].
    + right. exists [], s. repeat split. tauto.
    + destruct IH as [[Hn E] | [a [b [E [Hn Es]]]]].
      * left. rewrite E. split; [|reflexivity].
        simpl. intros [H|H]; [congruence | tauto].
      * right. rewrite Es. exists (c :: a), b. repeat split.
        -- simpl. now rewrite E.
        -- simpl. intros [H|H]; [congruence | tauto].
Qed.

(** The last piece ends as the string does. *)
Lemma split_last (sep : N) (s : str) (c : N) :
  c <> sep -> exists l, last (split sep (s ++ [c])) [] = l ++ [c].
Proof.
  intros Hc. induction s as [|a s IH].
  - simpl. apply N.eqb_neq in Hc. rewrite Hc. now exists [].
  - destruct IH as [l E]. simpl app. simpl split.
    pose proof (split_not_nil sep (s ++ [c])) as Hn.
    destruct (a =? sep)%N.
    + exists l. destruct (split sep (s ++ [c])) as [|p ps] eqn:Es; [congruence|].
      exact E.
    + destruct (split sep (s ++ [c])) as [|p ps] eqn:Es; [congruence|].
      destruct ps as [|q qs].
      * simpl in E. subst p. now exists (a :: l).
      * exists l. exact E.
Qed.

Lemma not_blank_intro (line : str) (c : N) :
  In c line -> isspace c = false -> not_blank line = true.
Proof.
  intros Hin Hc. unfold not_blank, strip. apply truthy_true.
  intros E. pose proof (strip_by_keeps isspace line c Hin Hc) as K.
  rewrite E in K. exact K.
Qed.

Lemma strip_by_sublist (p : N -> bool) (s : str) (c : N) :
  In c (strip_by p s) -> In c s.
Proof.
  destruct (strip_by_spec p s) as [pre [post [E _]]]. intros H.
  rewrite E. apply in_or_app. right. apply in_or_app. now left.
Qed.

Lemma last_in (l : list str) (d : str) : l <> [] -> In (last l d) l.
Proof.
  induction l as [|a l IH]; [congruence|]. intros _.
  destruct l as [|b l']; [now left|].
  right. apply IH. discriminate.
Qed.

Lemma exists_last_char (s : str) : s <> [] -> exists r c, s = r ++ [c].
Proof.
  intros H. destruct (exists_last H) as [r [c E]]. now exists r, c.
Qed.

(** A message without whitespace at its ends that holds a newline has two
    lines that are not blank, the first and the last. *)
Lemma two_lines_two_parts (msg : str) :
  (forall c r, msg = c :: r -> isspace c = false) ->
  (forall r c, msg = r ++ [c] -> isspace c = false) ->
  In LF msg ->
  (2 <= List.length (parts msg))%nat.
Proof.
  intros Hhead Hlast Hin. unfold parts. rewrite length_map. fold not_blank.
  destruct (split_first LF msg) as [[Hn _] | [a [b [E [Ha Es]]]]]; [tauto|].
  assert (Hne : msg <> []) by (intros ->; exact Hin).
  destruct (exists_last_char msg Hne) as [r [c Er]].
  pose proof (Hlast r c Er) as Hc.
  assert (HcLF : c <> LF) by (intros ->; discriminate Hc).
  destruct (split_last LF r c HcLF) as [l El]. rewrite <- Er in El.
  rewrite Es in El |- *.
  pose proof (split_not_nil LF b) as Hb.
  assert (Hfirst : not_blank a = true).
  { destruct a as [|x a'].
    - simpl in E. specialize (Hhead LF b E). discriminate Hhead.
    - apply (not_blank_intro _ x); [now left|]. apply (Hhead x (a' ++ LF :: b)).
      now rewrite E. }
  simpl filter. rewrite Hfirst. simpl length.
  assert (Hlastpiece : In (l ++ [c]) (filter not_blank (split LF b))).
  { apply filter_In. split.
    - destruct (split LF b) as [|p ps] eqn:Eb; [congruence|].
      change (last (a :: p :: ps) []) with (last (p :: ps) []) in El.
      rewrite <- El. apply last_in. discriminate.
    - apply (not_blank_intro _ c); [|exact Hc]. apply in_or_app. right. now left. }
  destruct (filter not_blank (split LF b)); [contradiction | simpl; lia].
Qed.

Lemma parts_one_line (msg seg : str) : In seg (parts msg) -> ~ In LF seg.
Proof.
  unfold parts. intros H. apply in_map_iff in H. destruct H as [line [<- Hl]].
  apply filter_In in Hl. destruct Hl as [Hl _].
  pose proof (split_pieces LF msg) as Hp. rewrite Forall_forall in Hp.
  intros Hin. apply (Hp line Hl). unfold strip_chars in Hin.
  now apply strip_by_sublist in Hin.
Qed.

Lemma join_one_line (ps : list str) :
  Forall (fun seg => ~ In LF seg) ps -> ~ In LF (join [SP] ps).
Proof.
  induction ps as [|p ps IH]; intros H; [simpl; tauto|].
  inversion H as [|? ? Hp Hps]; subst.
  destruct ps as [|q qs]; [exact Hp|].
  change (join [SP] (p :: q :: qs)) with (p ++ [SP] ++ join [SP] (q :: qs)).
  intros Hin. apply in_app_or in Hin. destruct Hin as [Hin|Hin]; [now apply Hp|].
  apply in_app_or in Hin. destruct Hin as [Hin|Hin].
  - simpl in Hin. destruct Hin as [Hin|[]]. discriminate Hin.
  - now apply IH.
Qed.

Lemma default_meaning_one_line : ~ In LF default_meaning.
Proof.
  assert (H : forallb (fun c => negb (c =? LF)%N) default_meaning = true)
    by reflexivity.
  rewrite forallb_forall in H. intros Hin. specialize (H LF Hin).
  rewrite N.eqb_refl in H. discriminate H.
Qed.

(** X3: when the provider's message is read, the text and the meaning of
    the mantra are each a single line: neither holds a newline, whether the
    message had one line or many. *)
Theorem mantra_from_provider_is_single_line :
  forall (post : provider) (k : option str) (key : str)
         (req : MantraRequest.t) (msg : str),
    credential k = Some key ->
    call_provider post (mantra_request key req) = inr msg ->
    exists text meaning,
      mantra_content post k req = inr (text, meaning)
      /\ ~ In LF text /\ ~ In LF meaning.
Proof.
  intros post k key req msg Hk Hmsg.
  rewrite mantra_content_cases, Hk, Hmsg.
  destruct (split_message msg) as [text meaning] eqn:E.
  exists text, meaning. split; [reflexivity|].
  destruct (split_message_cases msg) as [[Hlen E'] | [Hlen E']];
    rewrite E' in E; injection E as <- <-.
  - assert (Hall : Forall (fun seg => ~ In LF seg) (parts msg))
      by (apply Forall_forall; intros seg; apply parts_one_line).
    destruct (parts msg) as [|p ps]; [simpl in Hlen; lia|].
    inversion Hall as [|? ? Hp Hps]; subst. split; [exact Hp|].
    now apply join_one_line.
  - split; [|apply default_meaning_one_line].
    intros Hin.
    destruct (call_provider_strips post _ msg Hmsg) as [s ->].
    destruct (strip_ends s) as [Hh Hl].
    pose proof (two_lines_two_parts (strip s) Hh Hl Hin). lia.
Qed.

Lemma mantra_from_provider_is_single_line_witness :
  credential (Some sample_key) = Some sample_key
  /\ call_provider
       (answering (JString (lit "I rise" ++ [LF; LF] ++ lit "Stand tall." ++ [LF]
                            ++ lit "Breathe.")))
       (mantra_request sample_key unset_request)
     = inr (lit "I rise" ++ [LF; LF] ++ lit "Stand tall." ++ [LF] ++ lit "Breathe.")
  /\ exists text meaning,
       mantra_content
         (answering (JString (lit "I rise" ++ [LF; LF] ++ lit "Stand tall." ++ [LF]
                              ++ lit "Breathe.")))
         (Some sample_key) unset_request
       = inr (text, meaning)
       /\ ~ In LF text /\ ~ In LF meaning.
Proof.
  split; [reflexivity|]. split; [reflexivity|].
  exact (mantra_from_provider_is_single_line
           (answering (JString (lit "I rise" ++ [LF; LF] ++ lit "Stand tall." ++ [LF]
                                ++ lit "Breathe.")))
           (Some sample_key) sample_key unset_request
           (lit "I rise" ++ [LF; LF] ++ lit "Stand tall." ++ [LF] ++ lit "Breathe.")
           eq_refl eq_refl).
Defined.

(* ===================================================================== *)
(** * Further properties: what is stored and what is sent *)
(* ===================================================================== *)

Section StoredMantra.

Context {store doc_id : Type}.
Variable create_document : str -> document -> store -> doc_id * store.

(** X4: without a credential, the stored mantra carries the user, the text
    and the meaning of the reply, and the mood, stage and theme exactly as
    the request had them: a default that went into the text is not stored,
    so a request without a stage is stored with no stage while its text
    names "Awakening" (and likewise "centered" and "clarity"). *)
Theorem defaults_are_not_stored :
  forall (env : environment) (db : store) (req : MantraRequest.t),
    credential (OPENAI_API_KEY env) = None ->
    exists reply db' doc,
      generate_mantra create_document env db req = inr (reply, db')
      /\ create_document (lit "mantra") (MantraDoc doc) db = (MantraReply.id reply, db')
      /\ Mantra.user_id doc = MantraRequest.user_id req
      /\ Mantra.text doc = MantraReply.text reply
      /\ Mantra.meaning doc = Some (MantraReply.meaning reply)
      /\ Mantra.mood doc = MantraRequest.user_mood req
      /\ Mantra.stage doc = MantraRequest.user_stage req
      /\ Mantra.journal_theme doc = MantraRequest.recent_journal_theme req
      /\ (MantraRequest.user_mood req = None ->
          Mantra.mood doc = None /\ contains (lit "centered") (Mantra.text doc) = true)
      /\ (MantraRequest.user_stage req = None ->
          Mantra.stage doc = None /\ contains (lit "Awakening") (Mantra.text doc) = true)
      /\ (MantraRequest.recent_journal_theme req = None ->
          Mantra.journal_theme doc = None
          /\ contains (lit "clarity") (Mantra.text doc) = true).
Proof.
  intros env db req Hk.
  destruct (generate_mantra_returns create_document env db req)
    as [text [meaning [Hc Hg]]].
  cbv zeta in Hg. rewrite Hg. eexists; eexists; eexists.
  split; [reflexivity|].
  split; [simpl MantraReply.id; apply surjective_pairing|].
  cbn [Mantra.user_id Mantra.text Mantra.meaning Mantra.mood Mantra.stage
       Mantra.journal_theme MantraReply.text MantraReply.meaning].
  do 6 (split; [reflexivity|]).
  rewrite mantra_content_cases, Hk in Hc. apply returned_inj in Hc.
  assert (Ht : text = mantra_template
                        (py_or (MantraRequest.recent_journal_theme req) (lit "clarity"))
                        (py_or (MantraRequest.user_mood req) (lit "centered"))
                        (py_or (MantraRequest.user_stage req) (lit "Awakening")))
    by (symmetry; exact (f_equal fst Hc)).
  clear Hc. subst text.
  match goal with
  | |- context [mantra_template ?th ?m ?st] =>
      destruct (mantra_template_contains th m st) as [Cth [Cm Cst]]
  end.
  split; [|split]; intros E; rewrite E in *; (split; [reflexivity | assumption]).
Qed.

End StoredMantra.

Lemma defaults_are_not_stored_witness :
  credential (OPENAI_API_KEY (sample_env None server_error utc_noon)) = None
  /\ exists reply db' doc,
       generate_mantra append_document (sample_env None server_error utc_noon) []
                       unset_request
       = inr (reply, db')
       /\ append_document (lit "mantra") (MantraDoc doc) [] = (MantraReply.id reply, db')
       /\ Mantra.stage doc = None
       /\ contains (lit "Awakening") (Mantra.text doc) = true.
Proof.
  split; [reflexivity|].
  destruct (defaults_are_not_stored
              append_document (sample_env None server_error utc_noon) []
              unset_request eq_refl)
    as [reply [db' [doc [Hg [Hs [_ [_ [_ [_ [_ [_ [_ [Hst _]]]]]]]]]]]]].
  exists reply, db', doc. destruct (Hst eq_refl) as [H1 H2]. now repeat split.
Defined.

(** X5: the identifier of the user is not sent to the provider: the
    request for a mantra is built from the credential and the mood, stage
    and theme only, the request for an oracle from the credential and the
    prompt only, so two callers with the same fields get the same content
    from the same provider. *)
Theorem user_id_is_not_sent :
  forall (post : provider) (k : option str)
         (req req' : MantraRequest.t) (consult consult' : OracleConsult.t),
    MantraRequest.user_mood req = MantraRequest.user_mood req' ->
    MantraRequest.user_stage req = MantraRequest.user_stage req' ->
    MantraRequest.recent_journal_theme req = MantraRequest.recent_journal_theme req' ->
    OracleConsult.prompt consult = OracleConsult.prompt consult' ->
    (forall key, mantra_request key req = mantra_request key req')
    /\ mantra_content post k req = mantra_content post k req'
    /\ (forall key, oracle_request key consult = oracle_request key consult')
    /\ oracle_content post k consult = oracle_content post k consult'.
Proof.
  intros post k req req' consult consult' Hm Hs Ht Hp.
  assert (Rm : forall key, mantra_request key req = mantra_request key req').
  { intros key. unfold mantra_request, base_prompt. now rewrite Hm, Hs, Ht. }
  assert (Ro : forall key, oracle_request key consult = oracle_request key consult').
  { intros key. unfold oracle_request, oracle_prompt. now rewrite Hp. }
  split; [exact Rm|]. split; [|split; [exact Ro|]].
  - rewrite !mantra_content_cases. destruct (credential k) as [key|].
    + now rewrite (Rm key).
    + unfold mantra_fallback. now rewrite Hm, Hs, Ht.
  - rewrite !oracle_content_cases. destruct (credential k) as [key|].
    + now rewrite (Ro key).
    + reflexivity.
Qed.

Lemma user_id_is_not_sent_witness :
  mantra_request sample_key centered_request
  = mantra_request sample_key
      {| MantraRequest.user_id := lit "another user";
         MantraRequest.user_mood := Some (lit "centered");
         MantraRequest.user_stage := Some (lit "Awakening");
         MantraRequest.recent_journal_theme := Some (lit "clarity") |}.
Proof.
  exact (proj1 (user_id_is_not_sent
                  server_error (Some sample_key) centered_request
                  {| MantraRequest.user_id := lit "another user";
                     MantraRequest.user_mood := Some (lit "centered");
                     MantraRequest.user_stage := Some (lit "Awakening");
                     MantraRequest.recent_journal_theme := Some (lit "clarity") |}
                  river_consult river_consult eq_refl eq_refl eq_refl eq_refl)
               sample_key).
Defined.

(* ===================================================================== *)
(** * Further properties: the health report *)
(* ===================================================================== *)


(** X7: the report lists at most ten collections, the first ten names the
    database gives, in their order, and all of them when there are ten or
    fewer; when the listing raises, the report quotes at most the first 80
    characters of the exception's message, lists no collection and still
    says "Connected". *)
Theorem health_report_is_bounded :
  forall (d : Database.t) (DATABASE_URL : option str),
    let r := test_database (Some d) DATABASE_URL in
    (forall names,
       Database.list_collection_names d = inr names ->
       (List.length (HealthReport.collections r) <= 10)%nat
       /\ (exists rest, names = HealthReport.collections r ++ rest)
       /\ ((List.length names <= 10)%nat -> HealthReport.collections r = names))
    /\ (forall e,
          Database.list_collection_names d = inl e ->
          (exists quoted rest,
             e = quoted ++ rest
             /\ (List.length quoted <= 80)%nat
             /\ ((List.length e <= 80)%nat -> quoted = e)
             /\ HealthReport.database r
                = WARNING_SIGN ++ lit " Connected but Error: " ++ quoted)
          /\ (List.length (HealthReport.database r) <= 104)%nat
          /\ HealthReport.collections r = []
          /\ HealthReport.connection_status r = lit "Connected").
Proof.
  intros d url r. subst r. unfold test_database. split.
  - intros names E. rewrite E.
    cbn [with_database HealthReport.collections]. split; [|split].
    + rewrite length_firstn. lia.
    + exists (skipn 10 names). symmetry. apply firstn_skipn.
    + intros H. now apply firstn_all2.
  - intros e E. rewrite E.
    cbn [with_database HealthReport.database HealthReport.collections
         HealthReport.connection_status].
    split; [|split; [|split; reflexivity]].
    + exists (firstn 80 e), (skipn 80 e). split; [symmetry; apply firstn_skipn|].
      split; [rewrite length_firstn; lia|]. split; [|reflexivity].
      intros H. now apply firstn_all2.
    + rewrite !length_app, length_firstn.
      change (List.length WARNING_SIGN) with 2%nat.
      change (List.length (lit " Connected but Error: ")) with 22%nat. lia.
Qed.

(* ===================================================================== *)
(** * Further properties: users *)
(* ===================================================================== *)

Lemma str_eqb_eq (a b : str) : str_eqb a b = true <-> a = b.
Proof.
  unfold str_eqb. destruct (list_eq_dec N.eq_dec a b); split; congruence.
Qed.

Lemma is_one_of_iff (allowed : list str) (v : str) :
  is_one_of allowed v = true <-> In v allowed.
Proof.
  unfold is_one_of. rewrite existsb_exists. split.
  - intros [x [Hin E]]. apply str_eqb_eq in E. now subst.
  - intros H. exists v. split; [exact H | now apply str_eqb_eq].
Qed.

Lemma replied_inj {A : Type} (a b : A) : @inr raised A a = inr b -> a = b.
Proof. intros E. now injection E. Qed.

(** The constructor of [User] either builds the record, when the three
    [Literal] fields are allowed values, or raises on the fields that are
    not. *)
Lemma User_new_cases (display_name email auth_provider : str) (auth_uid : option str)
    (stage locale : str) :
  (is_one_of AUTH_PROVIDERS auth_provider && is_one_of STAGES stage
   && is_one_of LOCALES locale = true
   /\ User_new display_name email auth_provider auth_uid stage locale
      = inr {| User.display_name := display_name;
               User.email := email;
               User.auth_provider := auth_provider;
               User.auth_uid := auth_uid;
               User.stage := stage;
               User.locale := locale;
               User.avatar_url := None;
               User.premium_tier := lit "free" |})
  \/ (is_one_of AUTH_PROVIDERS auth_provider && is_one_of STAGES stage
      && is_one_of LOCALES locale = false
      /\ exists bad,
           bad <> []
           /\ User_new display_name email auth_provider auth_uid stage locale
              = inl (ValidationError bad)
           /\ (is_one_of STAGES stage = false -> In (lit "stage") bad)).
Proof.
  unfold User_new, invalid_fields.
  destruct (is_one_of AUTH_PROVIDERS auth_provider);
    destruct (is_one_of STAGES stage);
    destruct (is_one_of LOCALES locale);
    cbn [filter map fst snd negb andb];
    first [ left; split; reflexivity
          | right; split; [reflexivity|];
            refine (ex_intro _ _ (conj _ (conj eq_refl _)));
            [ discriminate
            | intros H; first [discriminate H | cbn; tauto] ] ].
Qed.

Section UserFacts.

Context {store oid : Type}.
Variable ObjectId : str -> str + oid.
Variable oid_str : oid -> str.
Variable find_one : store -> str -> str + option oid.
Variable update_one : oid -> user_update -> store -> str + store.
Variable create_document : str -> payload -> store -> str * store.


(** X9: when [upsert_user] returns, the stage of the reply is one of the
    five stages; it is the stage of the payload when one was supplied, and
    "Awakening" when the payload had none or an empty one. *)
Theorem upsert_user_stage :
  forall (db : option store) (now : clock) (payload : UpsertUserRequest.t)
         (reply : UpsertReply.t) (st' : store),
    upsert_user oid_str find_one update_one create_document db now payload
    = inr (reply, st') ->
    In (UpsertReply.stage reply) STAGES
    /\ (forall s, UpsertUserRequest.stage payload = Some s -> s <> [] ->
                  UpsertReply.stage reply = s)
    /\ (UpsertUserRequest.stage payload = None \/ UpsertUserRequest.stage payload = Some [] ->
        UpsertReply.stage reply = lit "Awakening").
Proof.
  intros db now payload reply st' H. unfold upsert_user in H.
  destruct db as [st|]; [|discriminate H].
  destruct (find_one st (UpsertUserRequest.email payload)) as [e|existing];
    cbn [bind ret raise Monad_either Exception_either] in H; [discriminate H|].
  destruct (User_new_cases (UpsertUserRequest.display_name payload)
              (UpsertUserRequest.email payload)
              (py_or (UpsertUserRequest.auth_provider payload) (lit "anonymous"))
              (UpsertUserRequest.auth_uid payload)
              (py_or (UpsertUserRequest.stage payload) (lit "Awakening"))
              (py_or (UpsertUserRequest.locale payload) (lit "en")))
    as [[Hv E] | [Hv [bad [Hbad [E Hstage]]]]]; rewrite E in H;
    cbn [bind ret Monad_either] in H; [|discriminate H].
  apply andb_true_iff in Hv. destruct Hv as [Hv _].
  apply andb_true_iff in Hv. destruct Hv as [_ Hs]. apply is_one_of_iff in Hs.
  assert (Hreply : UpsertReply.stage reply
                   = py_or (UpsertUserRequest.stage payload) (lit "Awakening")).
  { destruct existing as [id|].
    - destruct (update_one id _ st); [discriminate H|].
      apply replied_inj in H. now inversion H.
    - destruct (create_document _ _ st). apply replied_inj in H. now inversion H. }
  rewrite Hreply. split; [exact Hs|]. split.
  - intros s Es Hne. now apply py_or_supplied.
  - intros [Es|Es]; rewrite Es; reflexivity.
Qed.

(** X10: when [upsert_user] returns, a user found by the e-mail address is
    updated and no document is created, and the reply names the found
    user; the update sets the whole profile, so it puts the premium tier
    back to "free" and the avatar back to none. When no user is found, one
    document is created in the collection "user". *)
Theorem upsert_user_writes :
  forall (st : store) (now : clock) (payload : UpsertUserRequest.t)
         (reply : UpsertReply.t) (st' : store),
    upsert_user oid_str find_one update_one create_document (Some st) now payload
    = inr (reply, st') ->
    exists data,
      User.display_name data = UpsertUserRequest.display_name payload
      /\ User.email data = UpsertUserRequest.email payload
      /\ User.auth_uid data = UpsertUserRequest.auth_uid payload
      /\ User.stage data = UpsertReply.stage reply
      /\ User.premium_tier data = lit "free"
      /\ User.avatar_url data = None
      /\ match find_one st (UpsertUserRequest.email payload) with
         | inr (Some id) =>
             UpsertReply.user_id reply = oid_str id
             /\ update_one id (SetProfile data (epoch_seconds now)) st = inr st'
         | inr None =>
             create_document (lit "user") (UserData data) st
             = (UpsertReply.user_id reply, st')
         | inl _ => False
         end.
Proof.
  intros st now payload reply st' H. unfold upsert_user in H.
  destruct (find_one st (UpsertUserRequest.email payload)) as [e|existing];
    cbn [bind ret raise Monad_either Exception_either] in H; [discriminate H|].
  destruct (User_new_cases (UpsertUserRequest.display_name payload)
              (UpsertUserRequest.email payload)
              (py_or (UpsertUserRequest.auth_provider payload) (lit "anonymous"))
              (UpsertUserRequest.auth_uid payload)
              (py_or (UpsertUserRequest.stage payload) (lit "Awakening"))
              (py_or (UpsertUserRequest.locale payload) (lit "en")))
    as [[Hv E] | [Hv [bad [Hbad [E Hstage]]]]]; rewrite E in H;
    cbn [bind ret Monad_either] in H; [|discriminate H].
  exists {| User.display_name := UpsertUserRequest.display_name payload;
            User.email := UpsertUserRequest.email payload;
            User.auth_provider :=
              py_or (UpsertUserRequest.auth_provider payload) (lit "anonymous");
            User.auth_uid := UpsertUserRequest.auth_uid payload;
            User.stage := py_or (UpsertUserRequest.stage payload) (lit "Awakening");
            User.locale := py_or (UpsertUserRequest.locale payload) (lit "en");
            User.avatar_url := None;
            User.premium_tier := lit "free" |}.
  cbn [User.display_name User.email User.auth_uid User.stage
       User.premium_tier User.avatar_url].
  destruct existing as [id|].
  - destruct (update_one id _ st) as [e|st1] eqn:Eu; [discriminate H|].
    apply replied_inj in H. inversion H; subst; clear H.
    cbn [UpsertReply.stage UpsertReply.user_id User.stage].
    repeat split; exact Eu.
  - destruct (create_document _ _ st) as [uid st1] eqn:Ec.
    apply replied_inj in H. inversion H; subst; clear H.
    cbn [UpsertReply.stage UpsertReply.user_id User.stage].
    repeat split; exact Ec.
Qed.

(** X11: [update_stage] answers 500 exactly when no database is
    configured. With a database, a user id that is no identifier, or an
    update that raises, is answered 400 with "Invalid user or stage: " and
    the message of the exception; otherwise the reply is ok, and the
    status is one of 200, 400 and 500. *)
Theorem update_stage_outcomes :
  forall (db : option store) (now : clock) (req : StageUpdateRequest.t),
    let r := update_stage ObjectId update_one db now req in
    (response_status r = 500%Z <-> db = None)
    /\ (forall st e,
          db = Some st -> ObjectId (StageUpdateRequest.user_id req) = inl e ->
          r = inl (HTTPException 400 (lit "Invalid user or stage: " ++ e)))
    /\ (forall st id e,
          db = Some st -> ObjectId (StageUpdateRequest.user_id req) = inr id ->
          update_one id (SetStage (StageUpdateRequest.stage req) (epoch_seconds now)) st
          = inl e ->
          r = inl (HTTPException 400 (lit "Invalid user or stage: " ++ e)))
    /\ (forall st id st',
          db = Some st -> ObjectId (StageUpdateRequest.user_id req) = inr id ->
          update_one id (SetStage (StageUpdateRequest.stage req) (epoch_seconds now)) st
          = inr st' ->
          r = inr (true, st'))
    /\ (response_status r = 200%Z \/ response_status r = 400%Z
        \/ response_status r = 500%Z).
Proof.
  intros db now req r. subst r. unfold update_stage.
  destruct db as [st|].
  - split.
    { split; [|discriminate].
      destruct (ObjectId (StageUpdateRequest.user_id req)) as [e|id];
        [discriminate|].
      destruct (update_one id _ st); discriminate. }
    split; [intros st0 e E Ho; now rewrite Ho|].
    split; [intros st0 id e E Ho Hu; injection E as <-; now rewrite Ho, Hu|].
    split; [intros st0 id st' E Ho Hu; injection E as <-; now rewrite Ho, Hu|].
    destruct (ObjectId (StageUpdateRequest.user_id req)) as [e|id];
      [right; left; reflexivity|].
    destruct (update_one id _ st); [right; left | left]; reflexivity.
  - split; [split; reflexivity|].
    split; [discriminate|]. split; [discriminate|]. split; [discriminate|].
    right; right; reflexivity.
Qed.

(** X12: [update_stage] does not check the stage: a stage that is none of
    the five, which [upsert_user] refuses with a validation error on
    "stage" once its lookup of the user has returned, is written by
    [update_stage] and answered ok. *)
Theorem update_stage_accepts_any_stage :
  forall (st st' : store) (now : clock) (uid s : str) (id : oid)
         (payload : UpsertUserRequest.t) (existing : option oid),
    ~ In s STAGES ->
    s <> [] ->
    ObjectId uid = inr id ->
    update_one id (SetStage s (epoch_seconds now)) st = inr st' ->
    UpsertUserRequest.stage payload = Some s ->
    find_one st (UpsertUserRequest.email payload) = inr existing ->
    update_stage ObjectId update_one (Some st) now
      {| StageUpdateRequest.user_id := uid; StageUpdateRequest.stage := s |}
    = inr (true, st')
    /\ exists bad,
         In (lit "stage") bad
         /\ upsert_user oid_str find_one update_one create_document (Some st) now payload
            = inl (ValidationError bad).
Proof.
  intros st st' now uid s id payload existing Hs Hne Ho Hu Hp Hf. split.
  - unfold update_stage. cbn [StageUpdateRequest.user_id StageUpdateRequest.stage].
    now rewrite Ho, Hu.
  - unfold upsert_user. rewrite Hf.
    cbn [bind ret raise Monad_either Exception_either].
    assert (Hst : is_one_of STAGES (py_or (UpsertUserRequest.stage payload) (lit "Awakening"))
                  = false).
    { rewrite (py_or_supplied _ _ s Hp Hne).
      destruct (is_one_of STAGES s) eqn:E; [|reflexivity].
      apply is_one_of_iff in E. contradiction. }
    destruct (User_new_cases (UpsertUserRequest.display_name payload)
                (UpsertUserRequest.email payload)
                (py_or (UpsertUserRequest.auth_provider payload) (lit "anonymous"))
                (UpsertUserRequest.auth_uid payload)
                (py_or (UpsertUserRequest.stage payload) (lit "Awakening"))
                (py_or (UpsertUserRequest.locale payload) (lit "en")))
      as [[Hv E] | [Hv [bad [Hbad [E Hstage]]]]].
    + rewrite Hst in Hv. rewrite andb_false_r in Hv. discriminate Hv.
    + rewrite E. exists bad. split; [now apply Hstage | reflexivity].
Qed.

End UserFacts.

Lemma upsert_user_stage_witness :
  exists reply st',
    upsert_user sample_oid_str sample_find sample_update sample_create
                (Some []) utc_noon sample_payload
    = inr (reply, st')
    /\ In (UpsertReply.stage reply) STAGES
    /\ UpsertReply.stage reply = lit "Healing".
Proof.
  eexists; eexists. split; [reflexivity|].
  destruct (upsert_user_stage
              sample_oid_str sample_find sample_update sample_create
              (Some []) utc_noon sample_payload _ _ eq_refl) as [Hin [Hs _]].
  split; [exact Hin | exact (Hs (lit "Healing") eq_refl ltac:(discriminate))].
Defined.

Lemma upsert_user_writes_witness :
  exists reply st' data,
    upsert_user sample_oid_str sample_find sample_update sample_create
                (Some [(lit "user", UserData premium_user)]) utc_noon sample_payload
    = inr (reply, st')
    /\ sample_find [(lit "user", UserData premium_user)]
                   (UpsertUserRequest.email sample_payload) = inr (Some 0%nat)
    /\ User.premium_tier data = lit "free"
    /\ User.avatar_url data = None
    /\ UpsertReply.user_id reply = sample_oid_str 0
    /\ sample_update 0 (SetProfile data (epoch_seconds utc_noon))
                     [(lit "user", UserData premium_user)]
       = inr st'.
Proof.
  destruct (upsert_user_writes
              sample_oid_str sample_find sample_update sample_create
              [(lit "user", UserData premium_user)] utc_noon sample_payload _ _ eq_refl)
    as [data [_ [_ [_ [_ [Hp [Ha Hw]]]]]]].
  eexists; eexists; exists data. split; [reflexivity|].
  split; [reflexivity|]. split; [exact Hp|]. split; [exact Ha|]. exact Hw.
Defined.

Lemma update_stage_accepts_any_stage_witness :
  ~ In (lit "Ascended") STAGES
  /\ sample_object_id (lit "0123456789abcdef01234567") = inr 0%nat
  /\ sample_find [(lit "user", UserData premium_user)] (lit "amina@example.org")
     = inr (Some 0%nat)
  /\ update_stage sample_object_id sample_update
       (Some [(lit "user", UserData premium_user)]) utc_noon
       {| StageUpdateRequest.user_id := lit "0123456789abcdef01234567";
          StageUpdateRequest.stage := lit "Ascended" |}
     = inr (true, sample_replace 0 (SetStage (lit "Ascended") (epoch_seconds utc_noon))
                                 [(lit "user", UserData premium_user)])
  /\ exists bad,
       In (lit "stage") bad
       /\ upsert_user sample_oid_str sample_find sample_update sample_create
            (Some [(lit "user", UserData premium_user)]) utc_noon
            {| UpsertUserRequest.display_name := lit "Amina";
               UpsertUserRequest.email := lit "amina@example.org";
               UpsertUserRequest.auth_provider := None;
               UpsertUserRequest.auth_uid := None;
               UpsertUserRequest.stage := Some (lit "Ascended");
               UpsertUserRequest.locale := None |}
          = inl (ValidationError bad).
Proof.
  assert (Hs : ~ In (lit "Ascended") STAGES).
  { intros H. apply is_one_of_iff in H. discriminate H. }
  split; [exact Hs|]. split; [reflexivity|]. split; [reflexivity|].
  exact (update_stage_accepts_any_stage
           sample_object_id sample_oid_str sample_find sample_update sample_create
           [(lit "user", UserData premium_user)] _ utc_noon
           (lit "0123456789abcdef01234567") (lit "Ascended") 0%nat
           {| UpsertUserRequest.display_name := lit "Amina";
              UpsertUserRequest.email := lit "amina@example.org";
              UpsertUserRequest.auth_provider := None;
              UpsertUserRequest.auth_uid := None;
              UpsertUserRequest.stage := Some (lit "Ascended");
              UpsertUserRequest.locale := None |}
           (Some 0%nat)
           Hs ltac:(discriminate) eq_refl eq_refl eq_refl eq_refl).
Defined.

(* ===================================================================== *)
(** * Further properties: meditation, payments and collections *)
(* ===================================================================== *)








Lemma Payment_new_cases (user_id provider : str) (amount_cents : Z) (currency : str)
    (reference : option str) :
  (In provider PAYMENT_PROVIDERS
   /\ Payment_new user_id provider amount_cents currency (lit "pending") reference
      = inr {| Payment.user_id := user_id;
               Payment.provider := provider;
               Payment.amount_cents := amount_cents;
               Payment.currency := currency;
               Payment.status := lit "pending";
               Payment.reference := reference |})
  \/ (~ In provider PAYMENT_PROVIDERS
      /\ Payment_new user_id provider amount_cents currency (lit "pending") reference
         = inl (ValidationError [lit "provider"])).
Proof.
  unfold Payment_new, invalid_fields.
  change (is_one_of PAYMENT_STATUSES (lit "pending")) with true.
  destruct (is_one_of PAYMENT_PROVIDERS provider) eqn:E;
    cbn [filter map fst snd negb]; [left | right]; (split; [|reflexivity]).
  - now apply is_one_of_iff.
  - intros H. apply is_one_of_iff in H. congruence.
Qed.

Section StoreFacts.

Context {store : Type}.
Variable create_document : str -> payload -> store -> str * store.

(** X14: [create_payment_intent] returns exactly when the provider is
    "stripe", "mpesa" or "paypal"; any other provider raises a validation
    error on "provider", which the caller sees as a 500. When it returns,
    one payment is written with the user,
    provider, amount and currency of the request as they came (the amount
    is not checked, a negative one goes through), the status "pending" and
    the reference of the second, and the reply repeats that status and
    reference. *)
Theorem payment_intent_outcomes :
  forall (now : clock) (st : store) (req : PaymentIntentRequest.t),
    let r := create_payment_intent create_document now st req in
    (In (PaymentIntentRequest.provider req) PAYMENT_PROVIDERS ->
     exists pid st',
       create_document (lit "payment")
         (PaymentDoc {| Payment.user_id := PaymentIntentRequest.user_id req;
                        Payment.provider := PaymentIntentRequest.provider req;
                        Payment.amount_cents := PaymentIntentRequest.amount_cents req;
                        Payment.currency := PaymentIntentRequest.currency req;
                        Payment.status := lit "pending";
                        Payment.reference := Some (payment_reference now) |}) st
       = (pid, st')
       /\ r = inr ({| PaymentReply.id := pid;
                      PaymentReply.reference := Some (payment_reference now);
                      PaymentReply.status := lit "pending" |}, st'))
    /\ (~ In (PaymentIntentRequest.provider req) PAYMENT_PROVIDERS ->
        r = inl (ValidationError [lit "provider"]) /\ response_status r = 500%Z)
    /\ ((exists reply st', r = inr (reply, st'))
        <-> In (PaymentIntentRequest.provider req) PAYMENT_PROVIDERS).
Proof.
  intros now st req r. subst r. unfold create_payment_intent.
  destruct (Payment_new_cases (PaymentIntentRequest.user_id req)
              (PaymentIntentRequest.provider req)
              (PaymentIntentRequest.amount_cents req)
              (PaymentIntentRequest.currency req)
              (Some (payment_reference now))) as [[Hin E] | [Hn E]];
    rewrite E; cbn [bind ret Monad_either].
  - destruct (create_document (lit "payment") _ st) as [pid st'] eqn:Ec.
    cbn [Payment.reference Payment.status].
    split; [intros _; exists pid, st'; now split|].
    split; [intros H; contradiction|].
    split; [intros _; exact Hin | intros _; eexists; eexists; reflexivity].
  - split; [intros H; contradiction|].
    split; [intros _; split; reflexivity|].
    split; [intros [reply [st' H]]; discriminate H | intros H; contradiction].
Qed.

(** X15: [start_meditation] stamps the session itself: the start stored
    and the start in the reply are both the instant of the call, whatever
    start the client sent, while user, environment, duration and the
    completed flag are stored as they came. *)
Theorem meditation_start_is_the_call :
  forall (now : clock) (st : store) (sess : MeditationSession.t),
    (exists stored,
       create_document (lit "meditationsession") (SessionDoc stored) st
       = (MeditationReply.id (fst (start_meditation create_document now st sess)),
          snd (start_meditation create_document now st sess))
       /\ MeditationSession.started_at stored = Some (epoch_seconds now)
       /\ MeditationReply.started_at (fst (start_meditation create_document now st sess))
          = epoch_seconds now
       /\ MeditationSession.user_id stored = MeditationSession.user_id sess
       /\ MeditationSession.environment stored = MeditationSession.environment sess
       /\ MeditationSession.duration_minutes stored
          = MeditationSession.duration_minutes sess
       /\ MeditationSession.completed stored = MeditationSession.completed sess)
    /\ (forall supplied,
          start_meditation create_document now st
            {| MeditationSession.user_id := MeditationSession.user_id sess;
               MeditationSession.environment := MeditationSession.environment sess;
               MeditationSession.duration_minutes := MeditationSession.duration_minutes sess;
               MeditationSession.started_at := supplied;
               MeditationSession.completed := MeditationSession.completed sess |}
          = start_meditation create_document now st sess).
Proof.
  intros now st sess. split.
  - exists {| MeditationSession.user_id := MeditationSession.user_id sess;
              MeditationSession.environment := MeditationSession.environment sess;
              MeditationSession.duration_minutes :=
                MeditationSession.duration_minutes sess;
              MeditationSession.started_at := Some (epoch_seconds now);
              MeditationSession.completed := MeditationSession.completed sess |}.
    unfold start_meditation.
    destruct (create_document (lit "meditationsession") _ st) as [sid st'] eqn:E.
    repeat split.
  - intros supplied. reflexivity.
Qed.

End StoreFacts.

(** X16: every handler that creates a document names the collection after
    the class of the model it writes, in lower case, as [schemas.py] says
    collections are named: "mantra", "oracleconsult", "user",
    "journalentry", "meditationsession" and "payment". *)
Theorem collections_are_named_after_the_models :
  forall (store doc_id oid : Type)
         (create_generated : str -> document -> store -> doc_id * store)
         (create_document : str -> payload -> store -> str * store)
         (oid_str : oid -> str) (find_one : store -> str -> str + option oid)
         (update_one : oid -> user_update -> store -> str + store)
         (env : environment) (now : clock) (db : store),
    (forall req,
       generate_mantra create_generated env db req
       = generate_mantra (fun _ d => create_generated (lower (document_class_name d)) d)
                         env db req)
    /\ (forall consult,
          oracle create_generated env db consult
          = oracle (fun _ d => create_generated (lower (document_class_name d)) d)
                   env db consult)
    /\ (forall payload,
          upsert_user oid_str find_one update_one create_document (Some db) now payload
          = upsert_user oid_str find_one update_one
              (fun _ d => create_document (lower (class_name d)) d) (Some db) now payload)
    /\ (forall entry,
          create_journal create_document db entry
          = create_journal (fun _ d => create_document (lower (class_name d)) d) db entry)
    /\ (forall sess,
          start_meditation create_document now db sess
          = start_meditation (fun _ d => create_document (lower (class_name d)) d)
                             now db sess)
    /\ (forall req,
          create_payment_intent create_document now db req
          = create_payment_intent (fun _ d => create_document (lower (class_name d)) d)
                                  now db req).
Proof.
  intros store doc_id oid create_generated create_document oid_str find_one update_one
         env now db.
  repeat split; intros; reflexivity.
Qed.

(* ===================================================================== *)
(** * What the caller of a generation endpoint receives *)
(* ===================================================================== *)











Section Caller.

Context {store doc_id : Type}.
Variable create_document : str -> document -> store -> doc_id * store.


End Caller.
